(** * kshell-utilities: the log aggregation engine of [collect_logs.py]

    A shallow embedding of [kshell_utilities/collect_logs.py] and the
    properties of its parsers and of the aggregator.

    Conventions of the embedding.
    - Python [int] is [Z]; Python [str] is [string], read as ASCII text.
    - Python [float] is the kernel's binary64 [float]: literals, [+], [*],
      [/] and the comparisons are the IEEE 754 operations Python performs.
      Only [**] and the constant [pi] have no counterpart there; the unit
      converter is therefore written over an interface of arithmetic
      operations ([PyArith]) and read over the real numbers or over binary64.
    - A text file is the list of its lines, each with its line terminator,
      the way [readline] and iteration over the file hand them out.
    - A [dict] keyed by floats is an association list in insertion order and
      is searched with [==]; a dict keyed by tuples of integers and strings
      is a [gmap].
    - An exception is a value of [exn]; a [while True] loop takes fuel and
      answers [Timeout] when it runs out. *)

From Stdlib Require Import ZArith Floats Reals Lia Lra Ascii String.
From stdpp Require Import base option list sorting strings gmap.

Set Warnings "-inexact-float".

#[local] Open Scope string_scope.
#[local] Open Scope Z_scope.

(** ** Outcomes of a computation *)

Inductive exn : Type :=
  | ValueError
  | RuntimeError
  | FileNotFoundError
  | KeyError
  | IndexError
  | UnboundLocalError
  | OverflowError
  | ZeroDivisionError
  | EOFError.

Inductive outcome (A : Type) : Type :=
  | Ok (a : A)
  | Raise (e : exn)
  | Timeout.

Arguments Ok {A} a.
Arguments Raise {A} e.
Arguments Timeout {A}.

#[global] Instance outcome_ret : MRet outcome := fun _ a => Ok a.

#[global] Instance outcome_bind : MBind outcome := fun _ _ k m =>
  match m with
  | Ok a => k a
  | Raise e => Raise e
  | Timeout => Timeout
  end.

Definition or_raise {A : Type} (e : exn) (o : option A) : outcome A :=
  match o with
  | Some a => Ok a
  | None => Raise e
  end.

Definition returns {A : Type} (m : outcome A) : bool :=
  match m with
  | Ok _ => true
  | _ => false
  end.

(** ** Python's built-ins on text *)

Module Py.

Definition nl : string := String "010" "".

Definition chr_code (c : ascii) : Z := Z.of_N (N_of_ascii c).

(** [str.isspace] on ASCII: tab to carriage return, the four separators
    0x1c..0x1f and the blank. *)
Definition is_space (c : ascii) : bool :=
  let n := chr_code c in
  ((9 <=? n) && (n <=? 13)) || ((28 <=? n) && (n <=? 32)).

Definition is_digit (c : ascii) : bool :=
  let n := chr_code c in (48 <=? n) && (n <=? 57).

Definition digit_val (c : ascii) : Z := chr_code c - 48.

Definition digit_chr (d : Z) : ascii := ascii_of_N (Z.to_N (48 + d)).

Definition upper_chr (c : ascii) : ascii :=
  let n := chr_code c in
  if (97 <=? n) && (n <=? 122) then ascii_of_N (Z.to_N (n - 32)) else c.

Definition lower_chr (c : ascii) : ascii :=
  let n := chr_code c in
  if (65 <=? n) && (n <=? 90) then ascii_of_N (Z.to_N (n + 32)) else c.

Fixpoint map_chr (f : ascii -> ascii) (s : string) : string :=
  match s with
  | "" => ""
  | String c r => String (f c) (map_chr f r)
  end.


Definition upper : string -> string := map_chr upper_chr.
Definition lower : string -> string := map_chr lower_chr.

Definition len (s : string) : Z := Z.of_nat (String.length s).

(** [s[a:b]] for [0 <= a] and [0 <= b]: out-of-range bounds are clipped. *)
Definition slice (a b : nat) (s : string) : string :=
  String.substring a (b - a) s.

(** [s[a:]] *)
Definition slice_from (a : nat) (s : string) : string :=
  String.substring a (String.length s - a) s.

Fixpoint startswith (p s : string) : bool :=
  match p, s with
  | "", _ => true
  | String a p', String b s' => Ascii.eqb a b && startswith p' s'
  | String _ _, "" => false
  end.

Definition endswith (p s : string) : bool :=
  startswith (String.rev p) (String.rev s).

(** [s.find(sub)]: the least index at which [sub] occurs. *)
Fixpoint find (sub s : string) : option nat :=
  if startswith sub s then Some 0%nat
  else match s with
       | "" => None
       | String _ r => S <$> find sub r
       end.

(** [sub in s] *)
Definition contains (sub s : string) : bool := bool_decide (is_Some (find sub s)).

Definition repeat_chr (c : ascii) (n : nat) : string :=
  string_of_list_ascii (replicate n c).

Fixpoint lstrip (s : string) : string :=
  match s with
  | String c r => if is_space c then lstrip r else s
  | "" => ""
  end.

Fixpoint rstrip (s : string) : string :=
  match s with
  | String c r =>
      let r := rstrip r in
      if String.eqb r "" && is_space c then "" else String c r
  | "" => ""
  end.

Definition strip (s : string) : string := rstrip (lstrip s).

(** [s.split()]: the maximal runs of characters that are not white space. *)
Fixpoint split_ws (s : string) (word : string) : list string :=
  match s with
  | "" => if String.eqb word "" then [] else [word]
  | String c r =>
      if is_space c
      then (if String.eqb word "" then split_ws r "" else word :: split_ws r "")
      else split_ws r (word ++ String c "")
  end.

Definition split (s : string) : list string := split_ws s "".

(** [s.split(sep)] for a separator of one character. *)
Fixpoint split_at (sep : ascii) (s : string) (word : string) : list string :=
  match s with
  | "" => [word]
  | String c r =>
      if Ascii.eqb c sep then word :: split_at sep r ""
      else split_at sep r (word ++ String c "")
  end.

Definition split_on (sep : ascii) (s : string) : list string := split_at sep s "".

(** [l[i]] for [0 <= i], and [l[-k]] for [1 <= k]. *)
Definition item {A : Type} (l : list A) (i : nat) : outcome A :=
  or_raise IndexError (l !! i).

Definition item_back {A : Type} (l : list A) (k : nat) : outcome A :=
  or_raise IndexError (rev l !! (k - 1)%nat).

(** *** Integers and text *)

(** The decimal digits of [n >= 0], most significant first. *)
Fixpoint digits (fuel : nat) (n : Z) : string :=
  match fuel with
  | O => ""
  | S f =>
      if n <? 10 then String (digit_chr n) ""
      else digits f (n / 10) ++ String (digit_chr (n mod 10)) ""
  end.

Definition str_nonneg (n : Z) : string := digits (S (Z.to_nat (Z.log2 n))) n.

(** [str(z)] *)
Definition str (z : Z) : string :=
  if z <? 0 then String "-" (str_nonneg (- z)) else str_nonneg z.

(** A digit part: digits, single underscores allowed between two digits.
    [scan_digits s acc n] reads the longest digit part at the head of [s]
    and returns its value on top of [acc], the number of digits read on top
    of [n], and the rest; [None] when an underscore is misplaced. *)
Fixpoint scan_digits (s : string) (acc : Z) (n : nat) : option (Z * nat * string) :=
  match s with
  | String c r =>
      if is_digit c then
        match r with
        | String "_" (String d _ as r') =>
            if is_digit d then scan_digits r' (10 * acc + digit_val c) (S n) else None
        | String "_" "" => None
        | _ => scan_digits r (10 * acc + digit_val c) (S n)
        end
      else Some (acc, n, s)
  | "" => Some (acc, n, "")
  end.

(** A non-empty digit part that is the whole of [s]. *)
Definition digit_part (s : string) : option Z :=
  match scan_digits s 0 0 with
  | Some (v, S _, "") => Some v
  | _ => None
  end.

Definition split_sign (s : string) : bool * string :=
  match s with
  | String "-" r => (true, r)
  | String "+" r => (false, r)
  | _ => (false, s)
  end.

(** [int(s)]; [None] stands for [ValueError]. *)
Definition int_opt (s : string) : option Z :=
  let '(neg, r) := split_sign (strip s) in
  v ← digit_part r; Some (if neg then - v else v).

Definition int (s : string) : outcome Z := or_raise ValueError (int_opt s).

(** Format specifications [{s:ws}], [{z:wd}] and [{z:0wd}]. *)
Definition ljust (w : nat) (s : string) : string :=
  s ++ repeat_chr " " (w - String.length s).

Definition rjust (w : nat) (s : string) : string :=
  repeat_chr " " (w - String.length s) ++ s.

Definition format_s (w : nat) (s : string) : string := ljust w s.

Definition format_d (w : nat) (z : Z) : string := rjust w (str z).

Definition format_0d (w : nat) (z : Z) : string :=
  if z <? 0
  then String "-" (repeat_chr "0" (w - 1 - String.length (str_nonneg (- z))) ++ str_nonneg (- z))
  else repeat_chr "0" (w - String.length (str_nonneg z)) ++ str_nonneg z.

End Py.

(** ** Python's floats: binary64 *)

Module PyFloat.

#[local] Open Scope float_scope.
#[local] Open Scope Z_scope.

(** The integer nearest to [n / d] for [0 <= n] and [0 < d], ties to even. *)
Definition div_nearest_even (n d : Z) : Z :=
  let q := n / d in
  match 2 * (n mod d) ?= d with
  | Lt => q
  | Gt => q + 1
  | Eq => if Z.even q then q else q + 1
  end.

(** The integer nearest to [p / q * 2^(-e)]. *)
Definition scale_nearest_even (p q e : Z) : Z :=
  if 0 <=? e then div_nearest_even p (q * 2 ^ e)
  else div_nearest_even (p * 2 ^ (- e)) q.

(** The exponent of the binary64 number that [p / q] rounds to: the mantissa
    [p / q * 2^(-e)] lies in [[2^52, 2^53)], or [e] is the least exponent
    -1074 of the format. *)
Definition binary_exponent (p q : Z) : Z :=
  let e := Z.log2 p - Z.log2 q - 52 in
  let reaches := if 0 <=? e + 52 then q * 2 ^ (e + 52) <=? p
                 else q <=? p * 2 ^ (- (e + 52)) in
  Z.max (if reaches then e else e - 1) (-1074).

Definition of_mantissa (m e : Z) : float :=
  Z.ldexp (PrimFloat.of_uint63 (Uint63.of_Z m)) e.

(** The binary64 number nearest to [p / q] for [0 <= p] and [0 < q], ties to
    even; what is too large becomes infinite. *)
Definition nearest (p q : Z) : float :=
  if p =? 0 then 0%float
  else let e := binary_exponent p q in of_mantissa (scale_nearest_even p q e) e.

Definition signed (neg : bool) (x : float) : float :=
  if neg then (- x)%float else x.

Definition is_finite (x : float) : bool :=
  negb (PrimFloat.is_nan x) && negb (PrimFloat.is_infinity x).

(** The conversion of an [int] in mixed arithmetic and in [float(z)]. *)
Definition of_int (z : Z) : outcome float :=
  let x := signed (z <? 0) (nearest (Z.abs z) 1) in
  if is_finite x then Ok x else Raise OverflowError.

(** The exact value of a finite float as [(m, e)], standing for [m * 2^e]. *)
Definition to_dyadic (x : float) : option (Z * Z) :=
  match Prim2SF x with
  | S754_zero _ => Some (0, 0)
  | S754_finite s m e => Some (if s then Z.neg m else Z.pos m, e)
  | _ => None
  end.

(** A decimal exponent: [e] or [E], an optional sign, a digit part. *)
Definition exponent_part (s : string) : option Z :=
  match s with
  | "" => Some 0
  | String c r =>
      if Ascii.eqb (Py.lower_chr c) "e" then
        let '(neg, d) := Py.split_sign r in
        v ← Py.digit_part d; Some (if neg then - v else v)
      else None
  end.

(** Decimal exponents are cut off where the result is already decided: a
    value of [n] digits at most times [10^x] is zero below [x = -400 - n]
    and infinite above [x = 400]. *)
Definition decimal (mant : Z) (ndigits : nat) (x : Z) : float :=
  if mant =? 0 then 0%float
  else if 400 <? x then infinity
  else if x <? -400 - Z.of_nat ndigits then 0%float
  else if 0 <=? x then nearest (mant * 10 ^ x) 1
  else nearest mant (10 ^ (- x)).

(** [float(s)]: white space around, a sign, then [inf], [infinity], [nan]
    in any case, or a decimal literal. [None] stands for [ValueError]. *)
Definition of_str_opt (s : string) : option float :=
  let '(neg, r) := Py.split_sign (Py.strip s) in
  let word := Py.lower r in
  if String.eqb word "inf" || String.eqb word "infinity" then Some (signed neg infinity)
  else if String.eqb word "nan" then Some nan
  else
    '(ip, n1, r1) ← Py.scan_digits r 0 0;
    '(mant, n2, r2) ← match r1 with
                       | String "." r1' => Py.scan_digits r1' ip 0
                       | _ => Some (ip, 0%nat, r1)
                       end;
    if (n1 + n2 =? 0)%nat then None
    else x ← exponent_part r2;
         Some (signed neg (decimal mant (n1 + n2) (x - Z.of_nat n2))).

Definition of_str (s : string) : outcome float := or_raise ValueError (of_str_opt s).

(** Fixed-point text of [n / 10^prec] for an integer [0 <= n]. *)
Definition fixed (prec : nat) (n : Z) : string :=
  let d := Py.str_nonneg n in
  let d := Py.repeat_chr "0" (S prec - String.length d) ++ d in
  let k := (String.length d - prec)%nat in
  if (prec =? 0)%nat then d
  else String.substring 0 k d ++ "." ++ String.substring k prec d.

(** The format specification [{x:w.pf}]: correctly rounded, ties to even. *)
Definition format_f (w prec : nat) (x : float) : string :=
  Py.rjust w
    match Prim2SF x with
    | S754_nan => "nan"
    | S754_infinity s => if s then "-inf" else "inf"
    | S754_zero s => (if s then "-" else "") ++ fixed prec 0
    | S754_finite s m e =>
        (if s then "-" else "")
        ++ fixed prec (scale_nearest_even (Z.pos m * 10 ^ Z.of_nat prec) 1 (- e))
    end.

End PyFloat.

(** ** Dictionaries keyed by floats

    Insertion order is kept, a key is looked up with [==], and assigning to
    a key that is present keeps the key and its place. (Python looks at the
    identity of the key object before it asks [==]. That only matters for
    a NaN key, which is [==] to no float: here it is never found again, and
    no lookup below is by a key that can be NaN.) *)

Section Dict.
Context {V : Type}.

Definition dict : Type := list (float * V).

Definition dict_keys (d : dict) : list float := d.*1.

(** [k in d] *)
Definition dict_mem (k : float) (d : dict) : bool :=
  existsb (fun k' => PrimFloat.eqb k' k) (dict_keys d).

(** [d[k] = v] *)
Fixpoint dict_set (k : float) (v : V) (d : dict) : dict :=
  match d with
  | [] => [(k, v)]
  | (k', v') :: r =>
      if PrimFloat.eqb k' k then (k', v) :: r else (k', v') :: dict_set k v r
  end.

(** [d.update(d')] *)
Definition dict_update (d d' : dict) : dict :=
  foldl (fun acc kv => dict_set kv.1 kv.2 acc) d d'.

(** No two keys of the table are [==]. *)
Fixpoint distinct_keys (d : dict) : Prop :=
  match d with
  | [] => True
  | (k, _) :: r => dict_mem k r = false /\ distinct_keys r
  end.
End Dict.

Arguments dict V : clear implicits.

(** [sorted] on the [(key, value)] items of a table, whose keys differ, and
    so on its keys: a stable insertion sort that only asks [<], as Python's
    list sort does. The two sorts agree whenever [<] orders the keys, that
    is when none of several keys is NaN; what is proved below about the
    order of the levels assumes it, the rest holds of any rearrangement. *)
Fixpoint insort {V : Type} (x : float * V) (l : list (float * V)) : list (float * V) :=
  match l with
  | [] => [x]
  | y :: r => if PrimFloat.ltb x.1 y.1 then x :: l else y :: insort x r
  end.

Definition sorted_items {V : Type} (d : dict V) : list (float * V) :=
  foldl (fun acc x => insort x acc) [] d.

(** ** The module's globals *)

Definition weisskopf_threshold : float := (-0.001)%float.

(** [n_jnp[(spin, parity, n_eig)]] *)
Abbreviation index_table := (gmap (Z * string * Z) Z).

(** ** The formatters *)

Definition parity_integer_to_string (i : Z) : string :=
  if i =? 1 then "+" else "-".

(** [str(Fraction(x))] for a finite float [x]. *)
Definition Fraction_to_string (x : float) : outcome string :=
  match PyFloat.to_dyadic x with
  | None => Raise (if PrimFloat.is_nan x then ValueError else OverflowError)
  | Some (m, e) =>
      if 0 <=? e then Ok (Py.str (m * 2 ^ e))
      else
        let g := Z.gcd m (2 ^ (- e)) in
        let d := 2 ^ (- e) / g in
        Ok (if d =? 1 then Py.str (m / g) else Py.str (m / g) ++ "/" ++ Py.str d)
  end.

(** [a / b] on two [int]s: the correctly rounded quotient. *)
Definition int_truediv (a b : Z) : outcome float :=
  if b =? 0 then Raise ZeroDivisionError
  else
    let x := PyFloat.signed (xorb (a <? 0) (b <? 0))
               (PyFloat.nearest (Z.abs a) (Z.abs b)) in
    if PyFloat.is_finite x then Ok x else Raise OverflowError.

Definition spin_to_string (spin : Z) : outcome string :=
  if spin <? 0 then Ok (Py.str spin)
  else x ← int_truediv spin 2; Fraction_to_string x.

(** ** The unit converter *)

(** The arithmetic of [weisskopf_unit]: what Python does on [int] and
    [float] operands, as an interface. [lit n k] is the decimal literal
    [n / 10^k]. *)
Class PyArith (F : Type) : Type := {
  of_int : Z -> F;
  lit : Z -> nat -> F;
  pi : F;
  mul : F -> F -> F;
  div : F -> F -> F;
  pow : F -> F -> F
}.

(** Over the real numbers: the values that the floats approximate. The
    power is the real power of a positive base. *)
#[export] Instance real_arith : PyArith R := {
  of_int := IZR;
  lit n k := (IZR n / IZR (10 ^ Z.of_nat k))%R;
  pi := PI;
  mul := Rmult;
  div := Rdiv;
  pow := Rpower
}.

(** Over binary64, given the power function of the C library. *)
Definition float_arith (libm_pow : float -> float -> float) : PyArith float := {|
  of_int z := PyFloat.signed (z <? 0) (PyFloat.nearest (Z.abs z) 1);
  lit n k := PyFloat.nearest n (10 ^ Z.of_nat k);
  pi := 3.141592653589793%float;
  mul := PrimFloat.mul;
  div := PrimFloat.div;
  pow := libm_pow
|}.

Section Weisskopf.
Context {F : Type} `{PyArith F}.

#[local] Infix "*" := mul.
#[local] Infix "/" := div.
#[local] Infix "**" := pow (at level 30, right associativity).

Definition weisskopf_unit (multipole_type : string) (mass : Z) : outcome (F * string) :=
  l ← Py.int (Py.slice_from 1 multipole_type);
  c ← Py.item (list_ascii_of_string multipole_type) 0;
  if Ascii.eqb (Py.upper_chr c) "E" then
    if l + 3 =? 0 then Raise ZeroDivisionError
    else
      let B_weisskopf :=
        lit 12 1 ** of_int (2 * l)%Z / (of_int 4 * pi)
        * (of_int 3 / of_int (l + 3)) ** of_int 2
        * of_int mass ** (of_int (2 * l)%Z / of_int 3) in
      let unit_weisskopf := "e^2 fm^" ++ Py.str (2 * l)%Z in
      Ok (B_weisskopf, unit_weisskopf)
  else if Ascii.eqb (Py.upper_chr c) "M" then
    if l + 3 =? 0 then Raise ZeroDivisionError
    else
      let B_weisskopf :=
        of_int 10 / pi * lit 12 1 ** of_int (2 * l - 2)%Z
        * (of_int 3 / of_int (l + 3)) ** of_int 2
        * of_int mass ** (of_int (2 * l - 2)%Z / of_int 3) in
      let unit_weisskopf :=
        if l =? 1 then "mu_N^2  " else "mu_N^2 fm^" ++ Py.str (2 * l - 2)%Z in
      Ok (B_weisskopf, unit_weisskopf)
  else Raise ValueError.
End Weisskopf.

(** ** The energy log parser *)

(** [infile.readline()]: the next line, or the empty string at the end. *)
Definition readline (lines : list string) : string * list string :=
  match lines with
  | [] => ("", [])
  | line :: rest => (line, rest)
  end.

(** One level of [E_data]: (log filename, spin, parity, eigenstate number, tt). *)
Abbreviation level := (string * Z * string * Z * Z)%type.

(** [while energy in E_data: energy += 0.000001] *)
Fixpoint nudge (fuel : nat) (energy : float) (E_data : dict level) : outcome float :=
  match fuel with
  | O => Timeout
  | S fuel =>
      if dict_mem energy E_data then nudge fuel (energy + 0.000001)%float E_data
      else Ok energy
  end.

(** The scan for the line that carries the isospin. *)
Fixpoint read_isospin (fuel : nat) (infile : list string) : outcome (Z * list string) :=
  match fuel with
  | O => Timeout
  | S fuel =>
      let '(line, infile) := readline infile in
      if negb (String.eqb (Py.slice 42 45 line) " T:") then read_isospin fuel infile
      else tt' ← Py.int (Py.slice 45 48 line); Ok (tt', infile)
  end.

(** The loop over the eigenstates that follow a line taken for the
    convergence marker; it ends at the end of the file. *)
Fixpoint read_eigenstates (fuel : nat) (filename : string) (infile : list string)
    (E_data : dict level) : outcome (dict level * list string) :=
  match fuel with
  | O => Timeout
  | S fuel =>
      let '(line, infile) := readline infile in
      if String.eqb line "" then Ok (E_data, infile)
      else if String.eqb (Py.slice 6 10 line) "<H>:" then
        n_eig ← Py.int (Py.slice 0 5 line);
        energy ← PyFloat.of_str (Py.slice 11 22 line);
        spin ← Py.int (Py.slice 45 48 line);
        parity ← Py.int (Py.slice 57 59 line);
        let parity := parity_integer_to_string parity in
        energy ← nudge fuel energy E_data;
        '(tt', infile) ← read_isospin fuel infile;
        read_eigenstates fuel filename infile
          (dict_set energy (filename, spin, parity, n_eig, tt') E_data)
      else read_eigenstates fuel filename infile E_data
  end.

(** The body of [read_energy_logfile] on the lines of the open file. *)
Fixpoint read_energy_lines (fuel : nat) (filename : string) (infile : list string)
    (E_data : dict level) : outcome (dict level) :=
  match fuel with
  | O => Timeout
  | S fuel =>
      let '(line, infile) := readline infile in
      if String.eqb line "" then Ok E_data
      else if (11 <=? Py.len line) && negb (String.eqb (Py.slice 0 11 line) "H converged")
      then read_energy_lines fuel filename infile E_data
      else if (14 <=? Py.len line) && negb (String.eqb (Py.slice 0 14 line) "H bn converged")
      then read_energy_lines fuel filename infile E_data
      else
        '(E_data, infile) ← read_eigenstates fuel filename infile E_data;
        read_energy_lines fuel filename infile E_data
  end.

(** The files of the working directory, in the order [os.listdir] gives
    them, each with its lines. *)
Abbreviation directory := (list (string * list string)).

Fixpoint open (dir : directory) (filename : string) : outcome (list string) :=
  match dir with
  | [] => Raise FileNotFoundError
  | (f, lines) :: dir => if String.eqb f filename then Ok lines else open dir filename
  end.

Definition read_energy_logfile (fuel : nat) (dir : directory) (filename : string)
    (E_data : dict level) : outcome (dict level) :=
  infile ← open dir filename;
  read_energy_lines fuel filename infile E_data.

(** ** The transition log parsers *)

(** [x / y] on floats. *)
Definition float_div (x y : float) : outcome float :=
  if PrimFloat.eqb y 0 then Raise ZeroDivisionError else Ok (x / y)%float.

(** The locals that the header phase of a transition log binds. *)
Record header : Type := Header {
  mass_save : Z;
  weisskopf : option (float * string);
  filename_wavefunction_left : option string;
  filename_wavefunction_right : option string
}.

(** The locals bound at the line that announces the multipole type:
    [parity_final], [parity_initial], [is_diag]. *)
Abbreviation announcement := (string * string * bool)%type.

Definition local {A : Type} (x : option A) : outcome A := or_raise UnboundLocalError x.

Section Transit.
Context (libm_pow : float -> float -> float).
Context (n_jnp : index_table) (E_gs : float).

#[local] Open Scope float_scope.

(** The first loop over the file: mass number, wave function file names
    and the announcement of [multipole_type], which ends it. *)
Fixpoint read_transit_header (multipole_type : string) (infile : list string)
    (h : header) : outcome (header * option announcement * list string) :=
  match infile with
  | [] => Ok (h, None, [])
  | line :: infile =>
      let line_split := Py.split line in
      if (length line_split =? 0)%nat then read_transit_header multipole_type infile h
      else if Py.contains "mass=" line then
        n ← or_raise ValueError (Py.find "mass=" line);
        mass ← Py.int (Py.slice (n + 5) (n + 8) line);
        let mass_save := if (mass_save h =? 0)%Z then mass else mass_save h in
        if negb (mass_save =? mass)%Z then Raise RuntimeError
        else
          w ← weisskopf_unit (H := float_arith libm_pow) multipole_type mass;
          read_transit_header multipole_type infile
            (Header mass_save (Some w)
               (filename_wavefunction_left h) (filename_wavefunction_right h))
      else
        word ← Py.item line_split 0;
        if String.eqb word "fn_load_wave_l" then
          f ← Py.item line_split 2;
          read_transit_header multipole_type infile
            (Header (mass_save h) (weisskopf h) (Some f) (filename_wavefunction_right h))
        else if String.eqb word "fn_load_wave_r" then
          f ← Py.item line_split 2;
          read_transit_header multipole_type infile
            (Header (mass_save h) (weisskopf h) (filename_wavefunction_left h) (Some f))
        else if Py.contains (multipole_type ++ " transition") line then
          pf ← Py.item_back line_split 2;
          pf ← Py.int pf;
          let parity_final := parity_integer_to_string pf in
          pi ← Py.item_back line_split 1;
          pi ← Py.int pi;
          let parity_initial := parity_integer_to_string pi in
          l ← local (filename_wavefunction_left h);
          r ← local (filename_wavefunction_right h);
          let is_diag := String.eqb l r in
          Ok (h, Some (parity_final, parity_initial, is_diag), infile)
        else read_transit_header multipole_type infile h
  end.

(** What both parsers do with the fields of one line of the table: the
    filters, the translation of the indices and the formatted line under
    its sort key. A filtered line leaves [out_e] as it is. *)
Definition transition (h : header) (a : option announcement)
    (spin_final idx_1 spin_initial idx_2 : Z)
    (dE E_final E_initial B_decay B_excite : float)
    (out_e : dict string) : outcome (dict string) :=
  '(B_weisskopf, _) ← local (weisskopf h);
  B_weisskopf_decay ← float_div B_decay B_weisskopf;
  B_weisskopf_excite ← float_div B_excite B_weisskopf;
  if (spin_final =? spin_initial)%Z && (idx_1 =? idx_2)%Z then Ok out_e
  else
    '(parity_final, parity_initial, is_diag) ← local a;
    if is_diag && (dE <? 0) then Ok out_e
    else if B_weisskopf_decay <? weisskopf_threshold then Ok out_e
    else if B_weisskopf_excite <? weisskopf_threshold then Ok out_e
    else
      let E_final := if abs E_final <? 1e-3 then 0 else E_final in
      let E_initial := if abs E_initial <? 1e-3 then 0 else E_initial in
      idx_1 ← or_raise KeyError (n_jnp !! (spin_final, parity_final, idx_1));
      idx_2 ← or_raise KeyError (n_jnp !! (spin_initial, parity_initial, idx_2));
      J_i ← spin_to_string spin_initial;
      J_f ← spin_to_string spin_final;
      s_i ← PyFloat.of_int spin_initial;
      s_f ← PyFloat.of_int spin_final;
      i_1 ← PyFloat.of_int idx_1;
      i_2 ← PyFloat.of_int idx_2;
      if 0 <? dE then
        let out :=
          (Py.format_s 4 J_i ++ " " ++ Py.format_s 1 parity_initial ++ " "
           ++ Py.format_d 4 idx_2 ++ " " ++ PyFloat.format_f 9 3 E_initial ++ "   "
           ++ Py.format_s 4 J_f ++ " " ++ Py.format_s 1 parity_final ++ " "
           ++ Py.format_d 4 idx_1 ++ " " ++ PyFloat.format_f 9 3 E_final ++ " "
           ++ PyFloat.format_f 9 3 dE ++ " "
           ++ PyFloat.format_f 15 8 B_excite ++ " "
           ++ PyFloat.format_f 15 8 B_weisskopf_excite ++ " "
           ++ PyFloat.format_f 15 8 B_decay ++ " "
           ++ PyFloat.format_f 15 8 B_weisskopf_decay ++ Py.nl)%string in
        let key := E_initial + E_final * 1e-5 + s_i * 1e-10 + i_2 * 1e-11
                   + s_f * 1e-13 + i_1 * 1e-14 in
        Ok (dict_set key out out_e)
      else
        let out :=
          (Py.format_s 4 J_f ++ " " ++ Py.format_s 1 parity_final ++ " "
           ++ Py.format_d 4 idx_1 ++ " " ++ PyFloat.format_f 9 3 E_final ++ "   "
           ++ Py.format_s 4 J_i ++ " " ++ Py.format_s 1 parity_initial ++ " "
           ++ Py.format_d 4 idx_2 ++ " " ++ PyFloat.format_f 9 3 E_initial ++ " "
           ++ PyFloat.format_f 9 3 (- dE) ++ " "
           ++ PyFloat.format_f 15 8 B_decay ++ " "
           ++ PyFloat.format_f 15 8 B_weisskopf_decay ++ " "
           ++ PyFloat.format_f 15 8 B_excite ++ " "
           ++ PyFloat.format_f 15 8 B_weisskopf_excite ++ Py.nl)%string in
        let key := E_final + E_initial * 1e-5 + s_f * 1e-10 + i_1 * 1e-11
                   + s_i * 1e-12 + i_2 * 1e-14 in
        Ok (dict_set key out out_e).

(** One line of the table in the current layout: eleven fields separated
    by white space. *)
Definition read_transition (h : header) (a : option announcement)
    (line_split : list string) (out_e : dict string) : outcome (dict string) :=
  let field i := Py.item line_split i in
  spin_final ← field 0%nat ≫= Py.int;
  idx_1 ← field 1%nat ≫= Py.int;
  E_final ← field 2%nat ≫= PyFloat.of_str;
  spin_initial ← field 3%nat ≫= Py.int;
  idx_2 ← field 4%nat ≫= Py.int;
  E_initial ← field 5%nat ≫= PyFloat.of_str;
  dE ← field 6%nat ≫= PyFloat.of_str;
  Mred ← field 7%nat ≫= PyFloat.of_str;
  B_decay ← field 8%nat ≫= PyFloat.of_str;
  B_excite ← field 9%nat ≫= PyFloat.of_str;
  Mom ← field 10%nat ≫= PyFloat.of_str;
  transition h a spin_final idx_1 spin_initial idx_2
    dE (E_final - E_gs) (E_initial - E_gs) B_decay B_excite out_e.

(** One line of the table in the layout before 2021-11-24: fixed columns. *)
Definition read_transition_old (h : header) (a : option announcement)
    (line : string) (out_e : dict string) : outcome (dict string) :=
  spin_final ← Py.int (Py.slice 0 2 line);
  idx_1 ← Py.int (Py.slice 3 7 line);
  spin_initial ← Py.int (Py.slice 17 19 line);
  idx_2 ← Py.int (Py.slice 20 24 line);
  dE ← PyFloat.of_str (Py.slice 34 42 line);
  E_final ← PyFloat.of_str (Py.slice 8 17 line);
  E_initial ← PyFloat.of_str (Py.slice 25 34 line);
  B_decay ← PyFloat.of_str (Py.slice 52 62 line);
  B_excite ← PyFloat.of_str (Py.slice 62 72 line);
  transition h a spin_final idx_1 spin_initial idx_2
    dE (E_final - E_gs) (E_initial - E_gs) B_decay B_excite out_e.

(** The second loop over the file: the table, up to the first blank line. *)
Fixpoint read_transit_table (old : bool) (h : header) (a : option announcement)
    (infile : list string) (out_e : dict string) : outcome (dict string) :=
  match infile with
  | [] => Ok out_e
  | line :: infile =>
      let line_split := Py.split line in
      if (length line_split =? 0)%nat then Ok out_e
      else if Py.startswith "pn=" line then read_transit_table old h a infile out_e
      else
        out_e ← (if old then read_transition_old h a line out_e
                 else read_transition h a line_split out_e);
        read_transit_table old h a infile out_e
  end.

Definition read_transit_lines (old : bool) (infile : list string)
    (multipole_type : string) : outcome (string * dict string * Z) :=
  '(h, a, infile) ← read_transit_header multipole_type infile (Header 0 None None None);
  let infile := (readline infile).2 in
  out_e ← read_transit_table old h a infile [];
  '(_, unit_weisskopf) ← local (weisskopf h);
  Ok (unit_weisskopf, out_e, mass_save h).

Definition read_transit_logfile (dir : directory) (filename multipole_type : string)
    : outcome (string * dict string * Z) :=
  infile ← open dir filename;
  read_transit_lines false infile multipole_type.

Definition read_transit_logfile_old (dir : directory) (filename multipole_type : string)
    : outcome (string * dict string * Z) :=
  infile ← open dir filename;
  read_transit_lines true infile multipole_type.
End Transit.

(** ** The aggregator *)

(** What a call of [collect_logs] leaves behind: the warnings issued, the
    summary file if it was opened, with the pieces written to it, the
    globals [n_jnp] and [E_gs], and how the call ended. *)
Record run : Type := Run {
  warnings : list string;
  summary : option (string * list string);
  n_jnp : index_table;
  E_gs : float;
  ended : outcome ()
}.

Definition allowed_old_or_new : list string := ["new"; "old"].
Definition multipole_types : list string := ["E1"; "M1"; "E2"].

Definition in_list (s : string) (l : list string) : bool := existsb (String.eqb s) l.

(** The loop over [os.listdir(path)]: energy logs, transition logs and the
    isotopes named by the files. *)
Fixpoint list_logs (listing : list string) (energy_log_files transit_log_files isotopes : list string)
    : outcome (list string * list string * list string) :=
  match listing with
  | [] => Ok (energy_log_files, transit_log_files, isotopes)
  | elem :: listing =>
      if Py.startswith "log_" elem && Py.endswith ".txt" elem then
        tmp ← Py.item (Py.split_on "_" elem) 1;
        let tmp := Py.lower tmp in
        let isotopes := if in_list tmp isotopes then isotopes else (isotopes ++ [tmp])%list in
        if negb (Py.contains "_tr_" elem)
        then list_logs listing (energy_log_files ++ [elem])%list transit_log_files isotopes
        else list_logs listing energy_log_files (transit_log_files ++ [elem])%list isotopes
      else list_logs listing energy_log_files transit_log_files isotopes
  end.

(** The prompt that is repeated until an isotope of the list is typed;
    [stdin] holds the lines typed. *)
Fixpoint input_choice (stdin : list string) (isotopes : list string) : outcome string :=
  match stdin with
  | [] => Raise EOFError
  | choice :: stdin => if in_list choice isotopes then Ok choice else input_choice stdin isotopes
  end.

Definition discover (dir : directory) (stdin : list string)
    : outcome (list string * list string) :=
  '(energy_log_files, transit_log_files, isotopes) ← list_logs dir.*1 [] [] [];
  if (1 <? length isotopes)%nat then
    choice ← input_choice stdin isotopes;
    let chosen := filter (fun i => Py.contains choice (Py.lower i) = true) in
    Ok (chosen energy_log_files, chosen transit_log_files)
  else Ok (energy_log_files, transit_log_files).

(** [for log_file in energy_log_files: read_energy_logfile(log_file, E_data)] *)
Fixpoint read_energy_logfiles (fuel : nat) (dir : directory) (energy_log_files : list string)
    (E_data : dict level) : outcome (dict level) :=
  match energy_log_files with
  | [] => Ok E_data
  | log_file :: energy_log_files =>
      E_data ← read_energy_logfile fuel dir log_file E_data;
      read_energy_logfiles fuel dir energy_log_files E_data
  end.

(** The loop over the sorted energies that counts the occurrences of each
    (spin, parity) and records the count as the index of the level. Every
    [energy] of the loop is a key of the table itself, so [E_data[energy]]
    is the level stored with it: the loop runs over the items of the table
    in the order of their energies and returns them with the indices in
    place. *)
Fixpoint assign_indices (levels : list (float * level))
    (spin_parity_occurrences : gmap (Z * string) Z) (n_jnp : index_table)
    : list (float * level) * index_table :=
  match levels with
  | [] => ([], n_jnp)
  | (energy, (filename, spin, parity, n_eig, tt')) :: levels =>
      let spin_parity := (spin, parity) in
      let count := match spin_parity_occurrences !! spin_parity with
                   | Some c => c + 1
                   | None => 1
                   end in
      let '(levels, n_jnp) :=
        assign_indices levels (<[spin_parity := count]> spin_parity_occurrences)
          (<[(spin, parity, n_eig) := count]> n_jnp) in
      ((energy, (filename, spin, parity, count, tt')) :: levels, n_jnp)
  end.

(** The levels in the order of their energies, with their indices, and the
    updated [n_jnp], from the energy logs in the order given. *)
Definition read_levels (fuel : nat) (dir : directory) (energy_log_files : list string)
    (n_jnp : index_table) : outcome (list (float * level) * index_table) :=
  E_data ← read_energy_logfiles fuel dir energy_log_files [];
  let energies := dict_keys E_data in
  if (length energies =? 0)%nat then Raise RuntimeError
  else Ok (assign_indices (sorted_items E_data) ∅ n_jnp).

(** [f"summary_{isotope}_{model_space}_{counter:03d}.txt"] *)
Definition summary_file (isotope model_space : string) (counter : Z) : string :=
  "summary_" ++ isotope ++ "_" ++ model_space ++ "_" ++ Py.format_0d 3 counter ++ ".txt".

(** The search for a summary file name that is not taken. *)
Fixpoint summary_name (fuel : nat) (dir : directory) (isotope model_space : string)
    (counter : Z) : outcome string :=
  match fuel with
  | O => Timeout
  | S fuel =>
      if in_list (summary_file isotope model_space counter) dir.*1
      then summary_name fuel dir isotope model_space (counter + 1)
      else Ok (summary_file isotope model_space counter)
  end.

(** The lines of the levels block, one for each level in the order of the
    energies; what was written before an exception stays written. *)
Fixpoint write_levels (i : Z) (levels : list (float * level)) (E_gs : float)
    : list string * outcome () :=
  match levels with
  | [] => ([], Ok ())
  | (energy, (filename, spin, parity, n_eig, tt')) :: levels =>
      let line :=
        J ← spin_to_string spin;
        T ← spin_to_string tt';
        Ok (Py.format_d 5 (i + 1) ++ "   " ++ Py.format_s 5 J ++ " "
            ++ Py.format_s 1 parity ++ " " ++ Py.format_d 5 n_eig ++ "   "
            ++ Py.format_s 3 T ++ " " ++ PyFloat.format_f 10 3 energy ++ " "
            ++ PyFloat.format_f 10 3 (energy - E_gs) ++ "   " ++ filename ++ Py.nl) in
      match line with
      | Ok out =>
          let '(rest, e) := write_levels (i + 1) levels E_gs in (out :: rest, e)
      | Raise e => ([], Raise e)
      | Timeout => ([], Timeout)
      end
  end.

Definition levels_heading : list string :=
  [Py.nl ++ " Energy levels" ++ Py.nl;
   Py.nl ++ "    N   J     prty N_Jp T        E(MeV)    Ex(MeV)  log-file" ++ Py.nl ++ Py.nl].

Section Blocks.
Context (libm_pow : float -> float -> float).
Context (dir : directory) (n_jnp : index_table) (E_gs : float) (old_or_new : string).

(** [for filename in transit_log_files: ...; output_e.update(out_e)];
    [last] holds [unit_weisskopf] and [mass] as the last file left them. *)
Fixpoint read_transit_logfiles (multipole_type : string) (transit_log_files : list string)
    (output_e : dict string) (last : option (string * Z))
    : outcome (dict string * option (string * Z)) :=
  match transit_log_files with
  | [] => Ok (output_e, last)
  | filename :: transit_log_files =>
      '(unit_weisskopf, out_e, mass) ←
        (if String.eqb (Py.lower old_or_new) "new"
         then read_transit_logfile libm_pow n_jnp E_gs dir filename multipole_type
         else read_transit_logfile_old libm_pow n_jnp E_gs dir filename multipole_type);
      read_transit_logfiles multipole_type transit_log_files
        (dict_update output_e out_e) (Some (unit_weisskopf, mass))
  end.

(** The block of one multipole type. *)
Definition transition_block (multipole_type : string) (transit_log_files : list string)
    : outcome (list string) :=
  '(output_e, last) ← read_transit_logfiles multipole_type transit_log_files [] None;
  '(_, mass) ← local last;
  '(B_weisskopf, unit_weisskopf) ←
    weisskopf_unit (H := float_arith libm_pow) multipole_type mass;
  let heading :=
    ["B(" ++ multipole_type ++ ")  ( > " ++ PyFloat.format_f 0 1 weisskopf_threshold
     ++ " W.u.)  mass = " ++ Py.str mass ++ "    1 W.u. = "
     ++ PyFloat.format_f 0 1 B_weisskopf ++ " " ++ unit_weisskopf;
     Py.nl ++ unit_weisskopf ++ " (W.u.)";
     Py.nl ++ "J_i  pi_i idx_i Ex_i    J_f  pi_f idx_f Ex_f      dE         B("
     ++ multipole_type ++ ")->         B(" ++ multipole_type ++ ")->[wu]     B("
     ++ multipole_type ++ ")<-         B(" ++ multipole_type ++ ")<-[wu]" ++ Py.nl] in
  Ok (heading ++ (sorted_items output_e).*2 ++ [(Py.nl ++ Py.nl)%string])%list.

Fixpoint write_transitions (types : list string) (transit_log_files : list string)
    : list string * outcome () :=
  match types with
  | [] => ([], Ok ())
  | multipole_type :: types =>
      match transition_block multipole_type transit_log_files with
      | Ok block =>
          let '(rest, e) := write_transitions types transit_log_files in
          ((block ++ rest)%list, e)
      | Raise e => ([], Raise e)
      | Timeout => ([], Timeout)
      end
  end.
End Blocks.

Section CollectLogs.
Context (libm_pow : float -> float -> float).

(** [collect_logs(path, old_or_new)], where [dir] is the directory at
    [path], which is the working directory, [stdin] the lines typed at
    the prompt, and [n_jnp0], [E_gs0] the globals before the call. *)
Definition collect_logs (fuel : nat) (dir : directory) (stdin : list string)
    (n_jnp0 : index_table) (E_gs0 : float) (old_or_new : string) : run :=
  let stop {A : Type} (w : list string) (m : outcome A) : run :=
    Run w None n_jnp0 E_gs0 (m ≫= fun _ => Ok ()) in
  if negb (in_list (Py.lower old_or_new) allowed_old_or_new) then stop [] (@Raise () ValueError)
  else
    match discover dir stdin with
    | Ok (energy_log_files, transit_log_files) =>
        if (length energy_log_files =? 0)%nat then stop [] (@Raise () FileNotFoundError)
        else
          let w := if (length transit_log_files =? 0)%nat
                   then ["No transit log files in path '.'."] else [] in
          match read_levels fuel dir energy_log_files n_jnp0 with
          | Ok (levels, n_jnp) =>
              let E_gs := default E_gs0 (head levels.*1) in
              let name :=
                parts ← Ok (Py.split_on "_" (default "" (head energy_log_files)));
                isotope ← Py.item parts 1;
                model_space ← Py.item parts 2;
                summary_name fuel dir isotope model_space 0 in
              match name with
              | Ok summary_filename =>
                  let '(lines, e) := write_levels 0 levels E_gs in
                  match e with
                  | Ok _ =>
                      if (0 <? length transit_log_files)%nat then
                        let '(blocks, e) :=
                          write_transitions libm_pow dir n_jnp E_gs old_or_new
                            multipole_types transit_log_files in
                        Run w (Some (summary_filename,
                                     (levels_heading ++ lines ++ [Py.nl] ++ blocks)%list))
                          n_jnp E_gs e
                      else
                        Run w (Some (summary_filename,
                                     (levels_heading ++ lines ++ [Py.nl])%list))
                          n_jnp E_gs (Ok ())
                  | _ => Run w (Some (summary_filename, (levels_heading ++ lines)%list))
                           n_jnp E_gs e
                  end
              | _ => Run w None n_jnp E_gs (name ≫= fun _ => Ok ())
              end
          | e => stop w e
          end
    | e => stop [] e
    end.
End CollectLogs.

(** ** The formulas of the Weisskopf estimate, as the specification words them

    [B_w = 1.2^(2l) / (4 pi) * (3 / (l + 3))^2 * A^(2l / 3)] for an electric
    and [B_w = (10 / pi) * 1.2^(2l - 2) * (3 / (l + 3))^2 * A^((2l - 2) / 3)]
    for a magnetic multipole of rank [l] in a nucleus of mass number [A]. *)



(** ** Log files to run the parsers on *)

Module Example.

(** An eigenstate of an energy log, as KSHELL prints it on two lines. *)
Definition state_0m : list string :=
  ["   1  <H>:  -391.71288  <JJ>:    -0.00000  J:  0/2  prty -1     " ++ Py.nl;
   "    <Hcm>:     0.00022  <TT>:     6.00000  T:  4/2              " ++ Py.nl].

(** An energy log with no line that begins with [H converged] or
    [H bn converged]: an empty line, then one eigenstate. *)
Definition log_without_marker : list string := Py.nl :: state_0m.

(** An energy log that ends after the first line of an eigenstate. *)
Definition log_cut_short : list string :=
  ["H converged" ++ Py.nl] ++ take 1 state_0m.




(** The two lines of an eigenstate, from the text of its fields. *)
Definition eigenstate (n_eig energy spin parity tt' : string) : list string :=
  [Py.rjust 4 n_eig ++ "  <H>:" ++ Py.rjust 12 energy ++ "  <JJ>:    -0.00000  J:"
   ++ Py.rjust 3 spin ++ "/2  prty " ++ Py.rjust 2 parity ++ "     " ++ Py.nl;
   "    <Hcm>:     0.00022  <TT>:     6.00000  T:" ++ Py.rjust 3 tt' ++ "/2" ++ Py.nl].

(** Two energy logs: one holds the lowest state of spin 2 and positive
    parity, the other the states of negative parity, of which the second
    is the lowest of spin 2. *)
Definition log_j4p : list string :=
  ["H converged" ++ Py.nl] ++ eigenstate "1" "-10.00000" "4" "1" "0".

Definition log_m0n : list string :=
  ["H converged" ++ Py.nl] ++ eigenstate "1" "-9.50000" "0" "-1" "0"
  ++ eigenstate "2" "-9.00000" "4" "-1" "0".

Definition dir_Ni56 : directory :=
  [("log_Ni56_gxpf1a_j4p.txt", log_j4p); ("log_Ni56_gxpf1a_m0n.txt", log_m0n)].

(** The index table that [collect_logs] builds from the two logs. *)
Definition n_jnp_Ni56 : index_table :=
  match read_levels 9 dir_Ni56 dir_Ni56.*1 ∅ with
  | Ok (_, n_jnp) => n_jnp
  | _ => ∅
  end.

(** What the header phase leaves for an E1 table between the two files:
    the Weisskopf estimate for mass 56 and the parities of the announcement
    line. *)
Definition header_E1 : header :=
  Header 56 (Some (0.9434824790959767%float, "e^2 fm^2"))
    (Some "Ni56_gxpf1a_j4p.wav") (Some "Ni56_gxpf1a_m0n.wav").

Definition announcement_E1 : option announcement := Some ("+", "-", false).

(** A line of an E1 table, from the second state of the file of negative
    parity to the first state of the other file, in the two layouts. *)
Definition row_E1 : string :=
  "   4     1    -10.000   4     2     -9.000     1.000      0.50000000      0.25000000      0.25000000      0.00000000"
  ++ Py.nl.


(** A line of a table from a state to itself. *)
Definition row_self : string :=
  "   4     1    -10.000   4     1    -10.000     0.000    -20.43244863     83.49699137     83.49699137    -15.48643011"
  ++ Py.nl.

Definition row_self_old : string :=
  " 4(   1)  -10.000 4(   1)  -10.000   0.000  -20.4324   83.4970   83.4970  -15.4864"
  ++ Py.nl.

(** The head of a transition log that declares the mass number [mass], and
    a log with an empty E2 table under it. *)
Definition transit_head (mass : string) : list string :=
  [" N. of valence protons and neutrons =  3  7   mass=" ++ Py.rjust 3 mass
   ++ "   n,z-core    20   20" ++ Py.nl;
   "fn_load_wave_l = V50_gxpf1a_j0p.wav" ++ Py.nl;
   "fn_load_wave_r = V50_gxpf1a_j4p.wav" ++ Py.nl].

Definition transit_table : list string :=
  [" E2 transition  e^2 fm^4  eff_charge=  1.5000  0.5000 parity 1 1" ++ Py.nl;
   "   2Jf   idx  Ef        2Ji   idx  Ei          Ex        Mred.           B(EM )->        B(EM)<-         Mom."
   ++ Py.nl;
   Py.nl].

Definition log_V50 : list string :=
  ["H converged" ++ Py.nl] ++ eigenstate "1" "-20.00000" "0" "1" "4".

(** A directory in which two transition logs declare the masses 50 and 52. *)
Definition dir_two_masses : directory :=
  [("log_V50_gxpf1a_j0p.txt", log_V50);
   ("log_V50_gxpf1a_tr_j0p_j4p.txt", (transit_head "50" ++ transit_table)%list);
   ("log_V50_gxpf1a_tr_j4p_j8p.txt", (transit_head "52" ++ transit_table)%list)].

(** A directory in which one transition log declares the mass 50 and then
    the mass 52. *)
Definition dir_mass_changes : directory :=
  [("log_V50_gxpf1a_j0p.txt", log_V50);
   ("log_V50_gxpf1a_tr_j0p_j4p.txt",
    (transit_head "50" ++ transit_head "52" ++ transit_table)%list)].

(** Directories without transition logs: one energy log; the same log
    under a name without a model-space field; a log without eigenstates;
    and no energy log at all. *)
Definition dir_levels_only : directory :=
  [("log_V50_gxpf1a_j0p.txt", log_V50)].

Definition dir_short_name : directory :=
  [("log_V50.txt", log_V50)].

Definition dir_no_levels : directory :=
  [("log_V50_gxpf1a_j0p.txt", [" KSHELL log of a run that did not converge" ++ Py.nl])].

Definition dir_no_energy_log : directory :=
  [("log_V50_gxpf1a_tr_j0p_j4p.txt", (transit_head "50" ++ transit_table)%list);
   ("save_input_ui.txt", [])].




(** The power [x ** y] where [y] is 0 or 2, and [x] otherwise: the examples
    that need the C library's [pow] as an argument pass this function. *)
Definition pow_0_2 (x y : float) : float :=
  if PrimFloat.eqb y 0 then 1%float
  else if PrimFloat.eqb y 2 then (x * x)%float else x.

End Example.

(** The energy after [k] rounds of [energy += 0.000001]. *)
Fixpoint nudged (k : nat) (energy : float) : float :=
  match k with
  | O => energy
  | S k => nudged k (energy + 0.000001)%float
  end.



(** [<] on the keys of two items. *)
Definition key_lt {V : Type} (x y : float * V) : Prop := PrimFloat.ltb x.1 y.1 = true.

(** Every two of the energies are ordered by [<], one way or the other. *)
Fixpoint unambiguous (energies : list float) : Prop :=
  match energies with
  | [] => True
  | e :: energies =>
      Forall (fun e' => PrimFloat.ltb e e' = true \/ PrimFloat.ltb e' e = true) energies
      /\ unambiguous energies
  end.

(** The doubled spin and isospin of a level fit three characters. *)
Definition small_spins (l : float * level) : Prop :=
  let '(_, (_, spin, _, _, tt')) := l in -1000 < spin < 1000 /\ -1000 < tt' < 1000.

(** A property of a run that does not depend on what the C library's [pow]
    computes. *)
Definition for_every_pow (P : (float -> float -> float) -> Prop) : Prop :=
  forall libm_pow, P libm_pow.

(** A call that returns for no amount of fuel. *)
Definition never_returns {A : Type} (run : nat -> outcome A) : Prop :=
  forall fuel, run fuel = Timeout.

(** ** What the aggregator's properties are stated with *)

(** The names that [collect_logs] takes for logs: the energy logs and the
    transition logs among them. *)
Definition is_log (elem : string) : bool :=
  Py.startswith "log_" elem && Py.endswith ".txt" elem.

Definition is_energy_log (elem : string) : bool :=
  is_log elem && negb (Py.contains "_tr_" elem).

Definition is_transit_log (elem : string) : bool :=
  is_log elem && Py.contains "_tr_" elem.

(** The isotope that the name of a log stands for: its second field, in
    lower case. *)
Definition isotope_of (elem : string) : string :=
  Py.lower (default "" (Py.split_on "_" elem !! 1%nat)).

(** The levels of one spin and parity, and how many of them a list holds. *)
Definition same_spin_parity (spin : Z) (parity : string) (l : float * level) : bool :=
  let '(_, (_, s, p, _, _)) := l in (s =? spin) && String.eqb p parity.

Definition occurrences (spin : Z) (parity : string) (levels : list (float * level)) : Z :=
  Z.of_nat (length (filter (fun l => same_spin_parity spin parity l = true) levels)).

(** The key of a level in [n_jnp]. *)
Definition index_key (l : float * level) : Z * string * Z :=
  let '(_, (_, spin, parity, n_eig, _)) := l in (spin, parity, n_eig).

(** A level with its eigenstate number replaced by an index. *)
Definition with_index (l : float * level) (index : Z) : float * level :=
  let '(energy, (filename, spin, parity, _, tt')) := l in
  (energy, (filename, spin, parity, index, tt')).

(** A float that is not NaN is [==] to itself. *)
Definition is_number (x : float) : Prop := PrimFloat.eqb x x = true.

(** The text of a doubled spin: the half of an even one, and the fraction
    over 2 of an odd one; a negative number as it is. *)
Definition half_text (spin : Z) : string :=
  if spin <? 0 then Py.str spin
  else if Z.even spin then Py.str (spin / 2)
  else Py.str spin ++ "/2".

(** A line that the two marker tests of [read_energy_logfile] let through:
    fewer than 11 characters, or fewer than 14 of which the first 11 are
    [H converged]. *)
Definition taken_for_marker (line : string) : Prop :=
  line <> ""
  /\ (Py.len line < 11 \/ (Py.len line < 14 /\ Py.startswith "H converged" line = true)).

(** A record that was read from the log [filename]. *)
Definition read_from (filename : string) (l : float * level) : Prop :=
  let '(_, (f, _, parity, _, _)) := l in f = filename /\ (parity = "+" \/ parity = "-").

(** * Properties *)

#[local] Open Scope Z_scope.

(** ** The formatters *)

(** C10. [parity_integer_to_string] is defined on every integer and
    returns ["+"] exactly for 1; every other integer, 0 and -1 alike, gives
    ["-"], so no value is rejected. *)
Theorem parity_integer_to_string_total (i : Z) :
  (parity_integer_to_string i = "+" <-> i = 1)
  /\ (parity_integer_to_string i = "-" <-> i <> 1)
  /\ parity_integer_to_string 0 = "-"
  /\ parity_integer_to_string (-1) = "-".
Proof.
  unfold parity_integer_to_string.
  repeat split; try reflexivity; destruct (Z.eqb_spec i 1); intros; congruence.
Qed.

(** C7, at the doubled spin [2^53 + 1]. [spin_to_string] divides in
    floating point, so the odd number 9007199254740993 is rendered as the
    whole number 4503599627370496 and not as the fraction
    9007199254740993/2; reading it back and doubling gives
    9007199254740992. The doubled spins below 1000 that an energy log can
    hold, and the negative ones, are rendered as the claim says
    ([spin_to_string_exact], [spin_to_string_negative]). *)
Theorem spin_to_string_rounds_large_spin :
  spin_to_string 9007199254740993 = Ok "4503599627370496"
  /\ Py.int "4503599627370496" = Ok 4503599627370496
  /\ 2 * 4503599627370496 <> 9007199254740993
  /\ spin_to_string 3 = Ok "3/2"
  /\ spin_to_string 4 = Ok "2"
  /\ spin_to_string (-1) = Ok "-1".
Proof. repeat split; try (vm_compute; reflexivity). lia. Qed.

(** The doubled spins of three characters are rendered exactly. *)
Lemma spin_to_string_exact s :
  0 <= s < 1000 ->
  spin_to_string s = Ok (if Z.even s then Py.str (s / 2) else Py.str s ++ "/2").
Proof.
  intros Hs.
  pose (exact := fun s => match spin_to_string s with
                          | Ok r => String.eqb r (if Z.even s then Py.str (s / 2)
                                                  else Py.str s ++ "/2")
                          | _ => false
                          end).
  assert (Hall : forallb (fun n => exact (Z.of_nat n)) (seq 0 1000) = true)
    by (vm_compute; reflexivity).
  rewrite forallb_forall in Hall. specialize (Hall (Z.to_nat s)).
  rewrite Z2Nat.id in Hall by lia. unfold exact in Hall.
  destruct (spin_to_string s) as [r| |]; try (discriminate Hall; apply in_seq; lia).
  f_equal. apply String.eqb_eq, Hall, in_seq. lia.
Qed.

Lemma spin_to_string_negative s : s < 0 -> spin_to_string s = Ok (Py.str s).
Proof. intros Hs. unfold spin_to_string. apply Z.ltb_lt in Hs. now rewrite Hs. Qed.

(** ** The energy log parser *)

(** C6, on a log with no convergence marker. The two tests that skip a
    line only apply to lines of 11 and of 14 characters or more, so any
    shorter line, here an empty one, is taken for the marker and the
    eigenstate after it is added to the table. *)
Theorem read_energy_logfile_without_marker :
  forallb (fun line => negb (Py.startswith "H converged" line)
                       && negb (Py.startswith "H bn converged" line))
    Example.log_without_marker = true
  /\ read_energy_lines 4 "log_Ni56_gxpf1a_j0n.txt" Example.log_without_marker []
     = Ok [((-391.71288)%float, ("log_Ni56_gxpf1a_j0n.txt", 0, "-", 1, 4))].
Proof. split; vm_compute; reflexivity. Qed.

Lemma read_isospin_at_end fuel : read_isospin fuel [] = Timeout.
Proof. induction fuel as [|fuel IH]; [reflexivity|exact IH]. Qed.

Lemma nudge_no_exception fuel energy E_data e : nudge fuel energy E_data <> Raise e.
Proof.
  revert energy; induction fuel as [|fuel IH]; intros energy; cbn; [discriminate|].
  destruct (dict_mem energy E_data); [apply IH|discriminate].
Qed.

(** C9, on a log that ends after the first line of an eigenstate. The scan
    for the line with the isospin has no test for the end of the file:
    [readline] keeps returning the empty string, which does not carry the
    marker, and the loop goes on for ever. *)
Theorem read_energy_logfile_cut_short :
  forall E_data,
    never_returns (fun fuel =>
      read_energy_lines fuel "log_Ni56_gxpf1a_j0n.txt" Example.log_cut_short E_data).
Proof.
  intros E_data [|[|fuel]]; try reflexivity.
  change (read_energy_lines (S (S fuel)) _ _ _)
    with ('(E, infile) ← (energy ← nudge fuel (-391.71288)%float E_data;
                          '(tt', infile) ← read_isospin fuel [];
                          read_eigenstates fuel "log_Ni56_gxpf1a_j0n.txt" infile
                            (dict_set energy ("log_Ni56_gxpf1a_j0n.txt", 0, "-", 1, tt') E_data));
          read_energy_lines (S fuel) "log_Ni56_gxpf1a_j0n.txt" infile E).
  rewrite read_isospin_at_end.
  destruct (nudge fuel _ E_data) eqn:Hn; try reflexivity.
  now apply nudge_no_exception in Hn.
Qed.

(** ** Integers as text and back *)

Lemma digit_chr_spec d :
  0 <= d < 10 ->
  Py.is_digit (Py.digit_chr d) = true /\ Py.digit_val (Py.digit_chr d) = d
  /\ Py.is_space (Py.digit_chr d) = false
  /\ Py.startswith "_" (String (Py.digit_chr d) "") = false
  /\ Py.split_sign (String (Py.digit_chr d) "") = (false, String (Py.digit_chr d) "").
Proof.
  intros Hd.
  assert (Hcases : d = 0 \/ d = 1 \/ d = 2 \/ d = 3 \/ d = 4 \/ d = 5
                   \/ d = 6 \/ d = 7 \/ d = 8 \/ d = 9) by lia.
  repeat destruct Hcases as [-> | Hcases]; try subst d; vm_compute; auto.
Qed.

Lemma scan_digits_step c r acc k :
  Py.is_digit c = true -> Py.startswith "_" r = false ->
  Py.scan_digits (String c r) acc k = Py.scan_digits r (10 * acc + Py.digit_val c) (S k).
Proof.
  intros Hc Hr. cbn [Py.scan_digits]. rewrite Hc.
  destruct r as [|c' r']; [reflexivity|].
  destruct c' as [[] [] [] [] [] [] [] []]; try reflexivity; discriminate Hr.
Qed.

Lemma append_cons c r s : String c r ++ s = String c (r ++ s).
Proof. reflexivity. Qed.

Lemma append_empty s : "" ++ s = s.
Proof. reflexivity. Qed.

Lemma append_assoc (s t u : string) : (s ++ t) ++ u = s ++ (t ++ u).
Proof. induction s as [|c s IH]; [reflexivity|]. now rewrite !append_cons, IH. Qed.


Lemma digits_S fuel n :
  Py.digits (S fuel) n
  = if n <? 10 then String (Py.digit_chr n) ""
    else Py.digits fuel (n / 10) ++ String (Py.digit_chr (n mod 10)) "".
Proof. reflexivity. Qed.

(** The digits of [n] are read back as [n], whatever follows them. *)
Lemma scan_digits_digits fuel n rest k :
  0 <= n < 2 ^ Z.of_nat (S fuel) -> Py.startswith "_" rest = false ->
  exists m, Py.scan_digits (Py.digits (S fuel) n ++ rest) 0 k = Py.scan_digits rest n (S m)
            /\ Py.startswith "_" (Py.digits (S fuel) n ++ rest) = false.
Proof.
  revert n rest k. induction fuel as [|fuel IH]; intros n rest k Hn Hrest.
  - assert ((n <? 10) = true) as Hlt by (apply Z.ltb_lt; change (2 ^ Z.of_nat 1) with 2 in Hn; lia).
    rewrite digits_S, Hlt.
    destruct (digit_chr_spec n) as (Hd & Hv & _ & Hu & _); [apply Z.ltb_lt in Hlt; lia|].
    exists k. rewrite append_cons, append_empty, scan_digits_step, Hv by assumption.
    split; [f_equal; lia|].
    revert Hu. cbn. now rewrite !andb_true_r.
  - rewrite digits_S. destruct (n <? 10) eqn:Hlt.
    + destruct (digit_chr_spec n) as (Hd & Hv & _ & Hu & _); [apply Z.ltb_lt in Hlt; lia|].
      exists k. rewrite append_cons, append_empty, scan_digits_step, Hv by assumption.
      split; [f_equal; lia|].
      revert Hu. cbn. now rewrite !andb_true_r.
    + apply Z.ltb_ge in Hlt.
      destruct (digit_chr_spec (n mod 10)) as (Hd & Hv & _ & Hu & _);
        [apply Z.mod_pos_bound; lia|].
      assert (Hu' : Py.startswith "_" (String (Py.digit_chr (n mod 10)) rest) = false).
      { revert Hu. cbn. now rewrite !andb_true_r. }
      destruct (IH (n / 10) (String (Py.digit_chr (n mod 10)) rest) k) as (m & Hm & Hs).
      * split; [apply Z.div_pos; lia|].
        apply Z.div_lt_upper_bound; [lia|].
        rewrite Nat2Z.inj_succ, Z.pow_succ_r in Hn by lia. lia.
      * exact Hu'.
      * exists (S m). rewrite append_assoc, append_cons, append_empty.
        split; [|exact Hs].
        rewrite Hm, scan_digits_step, Hv by assumption.
        f_equal. rewrite (Z.div_mod n 10) at 3 by lia. lia.
Qed.







Lemma str_nonneg_bound n : 0 <= n -> 0 <= n < 2 ^ Z.of_nat (S (Z.to_nat (Z.log2 n))).
Proof.
  intros Hn. split; [exact Hn|].
  rewrite Nat2Z.inj_succ, Z2Nat.id by apply Z.log2_nonneg.
  destruct (Z.eq_dec n 0) as [->|Hz]; [reflexivity|].
  apply Z.log2_spec. lia.
Qed.



(** ** The unit converter *)






(** ** Comparisons of floats *)

Lemma SFcompare_swap x y : SFcompare y x = CompOpp <$> SFcompare x y.
Proof.
  destruct x as [[]|[]| |[] m1 e1], y as [[]|[]| |[] m2 e2]; try reflexivity;
    cbn; rewrite (Z.compare_antisym e1 e2); destruct (e1 ?= e2); cbn; try reflexivity;
    change (PosDef.Pos.compare_cont Eq ?a ?b) with (Pos.compare a b);
    rewrite (Pos.compare_antisym m1 m2); try rewrite CompOpp_involutive; reflexivity.
Qed.

Lemma float_eqb_sym x y : PrimFloat.eqb x y = PrimFloat.eqb y x.
Proof.
  rewrite !FloatAxioms.eqb_spec. unfold SFeqb. rewrite (SFcompare_swap (Prim2SF x) (Prim2SF y)).
  now destruct (SFcompare (Prim2SF x) (Prim2SF y)) as [[]|].
Qed.

(** ** Tables keyed by floats *)

Section DictFacts.
Context {V : Type}.
#[local] Open Scope list_scope.
Implicit Types (d : dict V) (k : float) (v : V).

Lemma dict_mem_cons k k' v d :
  dict_mem k ((k', v) :: d) = PrimFloat.eqb k' k || dict_mem k d.
Proof. reflexivity. Qed.

Lemma dict_mem_app k d d' : dict_mem k (d ++ d') = dict_mem k d || dict_mem k d'.
Proof. unfold dict_mem, dict_keys. now rewrite fmap_app, existsb_app. Qed.

(** Assigning to a key that is not in the table adds an entry at the end. *)
Lemma dict_set_fresh k v d : dict_mem k d = false -> dict_set k v d = d ++ [(k, v)].
Proof.
  induction d as [|[k' v'] d IH]; [reflexivity|].
  rewrite dict_mem_cons. intros [Hk Hd]%orb_false_elim.
  cbn. now rewrite Hk, IH.
Qed.


Lemma distinct_keys_snoc k v d :
  distinct_keys d -> dict_mem k d = false -> distinct_keys (d ++ [(k, v)]).
Proof.
  induction d as [|[k' v'] d IH]; [now cbn|].
  intros [Hk' Hd]. rewrite dict_mem_cons. intros [Hk Hm]%orb_false_elim.
  cbn [app distinct_keys]. split; [|now apply IH].
  rewrite dict_mem_app, Hk'. cbn. now rewrite float_eqb_sym, Hk.
Qed.
End DictFacts.

(** ** Reasoning about outcomes *)

Lemma bind_Ok {A B : Type} (m : outcome A) (k : A -> outcome B) b :
  m ≫= k = Ok b -> exists a, m = Ok a /\ k a = Ok b.
Proof. destruct m as [a| |]; cbn; intros H; [now exists a|discriminate..]. Qed.

Ltac bind_inv H :=
  let a := fresh "a" in
  let Ha := fresh "H" a in
  apply bind_Ok in H; destruct H as (a & Ha & H).

(** ** The energy log parser: what a call does to the table *)

Section EnergyLog.
Context (filename : string).
#[local] Open Scope list_scope.

Lemma read_isospin_Ok fuel infile tt' rest :
  read_isospin fuel infile = Ok (tt', rest) ->
  exists line, Py.int (Py.slice 45 48 line) = Ok tt'.
Proof.
  revert infile. induction fuel as [|fuel IH]; intros infile; [discriminate|].
  cbn [read_isospin]. destruct (readline infile) as [line infile'].
  destruct (negb _); [apply IH|].
  intros H. bind_inv H. exists line. congruence.
Qed.

(** Every entry of the table is put there by an assignment
    [E_data[energy'] = (filename, spin, parity, n_eig, tt)] in which the
    numbers are read from the fixed columns of two lines and [energy'] is
    what the collision loop returned on the table as it was. A property of
    tables that every such assignment keeps is kept by the parser. *)
Lemma read_eigenstates_ind (P : dict level -> Prop) :
  (forall E line1 line2 fuel n_eig energy energy' spin parity tt',
     P E ->
     Py.int (Py.slice 0 5 line1) = Ok n_eig ->
     PyFloat.of_str (Py.slice 11 22 line1) = Ok energy ->
     Py.int (Py.slice 45 48 line1) = Ok spin ->
     Py.int (Py.slice 57 59 line1) = Ok parity ->
     nudge fuel energy E = Ok energy' ->
     Py.int (Py.slice 45 48 line2) = Ok tt' ->
     P (dict_set energy' (filename, spin, parity_integer_to_string parity, n_eig, tt') E)) ->
  forall fuel infile E E' rest,
    P E -> read_eigenstates fuel filename infile E = Ok (E', rest) -> P E'.
Proof.
  intros Hstep. induction fuel as [|fuel IH]; intros infile E E' rest HE; [discriminate|].
  cbn [read_eigenstates]. destruct (readline infile) as [line infile'].
  destruct (String.eqb line ""); [intros [= <- _]; exact HE|].
  destruct (String.eqb _ "<H>:"); [|intros H; eapply IH; eassumption].
  intros H. do 6 bind_inv H. destruct a4 as [tt' infile''].
  destruct (read_isospin_Ok _ _ _ _ Ha4) as [line2 Hline2].
  eapply IH; [|exact H]. eapply Hstep; eassumption.
Qed.

Lemma read_energy_lines_ind (P : dict level -> Prop) :
  (forall E line1 line2 fuel n_eig energy energy' spin parity tt',
     P E ->
     Py.int (Py.slice 0 5 line1) = Ok n_eig ->
     PyFloat.of_str (Py.slice 11 22 line1) = Ok energy ->
     Py.int (Py.slice 45 48 line1) = Ok spin ->
     Py.int (Py.slice 57 59 line1) = Ok parity ->
     nudge fuel energy E = Ok energy' ->
     Py.int (Py.slice 45 48 line2) = Ok tt' ->
     P (dict_set energy' (filename, spin, parity_integer_to_string parity, n_eig, tt') E)) ->
  forall fuel infile E E',
    P E -> read_energy_lines fuel filename infile E = Ok E' -> P E'.
Proof.
  intros Hstep. induction fuel as [|fuel IH]; intros infile E E' HE; [discriminate|].
  cbn [read_energy_lines]. destruct (readline infile) as [line infile'].
  destruct (String.eqb line ""); [intros [= <-]; exact HE|].
  destruct (_ && _); [intros H; eapply IH; eassumption|].
  destruct (_ && _); [intros H; eapply IH; eassumption|].
  intros H. bind_inv H. destruct a as [E1 infile1].
  eapply IH; [|exact H]. eapply read_eigenstates_ind; eassumption.
Qed.
End EnergyLog.

(** ** The collision loop *)

Lemma nudge_Ok fuel energy (E_data : dict level) energy' :
  nudge fuel energy E_data = Ok energy' ->
  exists k, (k < fuel)%nat /\ energy' = nudged k energy
            /\ dict_mem energy' E_data = false
            /\ forall j, (j < k)%nat -> dict_mem (nudged j energy) E_data = true.
Proof.
  revert energy. induction fuel as [|fuel IH]; intros energy; [discriminate|].
  cbn [nudge]. destruct (dict_mem energy E_data) eqn:Hmem.
  - intros (k & Hk & -> & Hfree & Hbusy)%IH. exists (S k).
    repeat split; [lia|exact Hfree|].
    intros [|j] Hj; [exact Hmem|]. apply Hbusy. lia.
  - intros [= <-]. exists 0%nat. repeat split; [lia|exact Hmem|]. intros j Hj. lia.
Qed.




Lemma read_energy_logfiles_ind (P : dict level -> Prop) :
  (forall filename E line1 line2 fuel n_eig energy energy' spin parity tt',
     P E ->
     Py.int (Py.slice 0 5 line1) = Ok n_eig ->
     PyFloat.of_str (Py.slice 11 22 line1) = Ok energy ->
     Py.int (Py.slice 45 48 line1) = Ok spin ->
     Py.int (Py.slice 57 59 line1) = Ok parity ->
     nudge fuel energy E = Ok energy' ->
     Py.int (Py.slice 45 48 line2) = Ok tt' ->
     P (dict_set energy' (filename, spin, parity_integer_to_string parity, n_eig, tt') E)) ->
  forall fuel dir energy_log_files E E',
    P E -> read_energy_logfiles fuel dir energy_log_files E = Ok E' -> P E'.
Proof.
  intros Hstep fuel dir files. induction files as [|f files IH]; intros E E' HE.
  - now intros [= <-].
  - cbn [read_energy_logfiles]. intros H. bind_inv H.
    eapply IH; [|exact H]. unfold read_energy_logfile in Ha. bind_inv Ha.
    eapply read_energy_lines_ind; [apply Hstep|exact HE|exact Ha].
Qed.



(** ** The transition log parsers *)





(** C3, as stated, fails: [mass_save] is a local of the parser and starts
    at 0 for every file, so two transition logs that declare the masses 50
    and 52 raise nothing and the run ends normally. When one log declares
    50 and then 52 the run does end with [RuntimeError], with the heading
    and the levels already written to the summary file. *)
Lemma mass_mismatch_between_files :
  for_every_pow (fun libm_pow =>
    ended (collect_logs libm_pow 9 Example.dir_two_masses [] ∅ 0%float "new") = Ok ()
    /\ ended (collect_logs libm_pow 9 Example.dir_two_masses [] ∅ 0%float "old") = Ok ()
    /\ ended (collect_logs libm_pow 9 Example.dir_mass_changes [] ∅ 0%float "new")
       = Raise RuntimeError
    /\ summary (collect_logs libm_pow 9 Example.dir_mass_changes [] ∅ 0%float "new")
       = Some ("summary_V50_gxpf1a_000.txt",
               levels_heading
               ++ [("    1   0     +     1   2      -20.000      0.000   log_V50_gxpf1a_j0p.txt"
                    ++ Py.nl)%string; Py.nl])%list).
Proof. intros libm_pow. repeat split; vm_compute; reflexivity. Qed.

(** Lines that the header phase reads to their end without meeting the
    announcement only change the locals. *)
Lemma read_transit_header_app libm_pow multipole_type pre more h0 h :
  read_transit_header libm_pow multipole_type pre h0 = Ok (h, None, []) ->
  read_transit_header libm_pow multipole_type (pre ++ more)%list h0
  = read_transit_header libm_pow multipole_type more h.
Proof.
  revert h0. induction pre as [|line pre IH]; intros h0.
  - now intros [= ->].
  - cbn [read_transit_header app].
    destruct (_ =? _)%nat; [apply IH|].
    destruct (Py.contains "mass=" line).
    { intros H. do 2 bind_inv H. rewrite Ha. cbn [mbind outcome_bind].
      rewrite Ha0. cbn [mbind outcome_bind].
      destruct (negb _); [discriminate|]. bind_inv H. rewrite Ha1.
      cbn [mbind outcome_bind]. now apply IH. }
    intros H. bind_inv H. rewrite Ha. cbn [mbind outcome_bind].
    destruct (String.eqb a "fn_load_wave_l").
    { bind_inv H. rewrite Ha0. cbn [mbind outcome_bind]. now apply IH. }
    destruct (String.eqb a "fn_load_wave_r").
    { bind_inv H. rewrite Ha0. cbn [mbind outcome_bind]. now apply IH. }
    destruct (Py.contains _ line); [|now apply IH].
    do 6 bind_inv H. discriminate H.
Qed.

(** C3, amended. The masses are compared inside one transition log only:
    when the header phase of a log has kept a mass other than 0 and comes
    to a line that declares a different one, both parsers raise
    [RuntimeError]. *)
Theorem mass_mismatch_in_file libm_pow n_jnp E_gs (old : bool) multipole_type
    (pre rest : list string) (line : string) (h : header) (n : nat) (mass : Z) :
  read_transit_header libm_pow multipole_type pre (Header 0 None None None)
  = Ok (h, None, []) ->
  mass_save h <> 0 ->
  Py.split line <> [] ->
  Py.find "mass=" line = Some n ->
  Py.int (Py.slice (n + 5) (n + 8) line) = Ok mass ->
  mass <> mass_save h ->
  read_transit_lines libm_pow n_jnp E_gs old (pre ++ line :: rest)%list multipole_type
  = Raise RuntimeError.
Proof.
  intros Hpre Hsave Hsplit Hfind Hmass Hne. unfold read_transit_lines.
  rewrite (read_transit_header_app _ _ _ _ _ _ Hpre). cbn [read_transit_header].
  destruct (Py.split line) as [|w ws] eqn:Hs; [contradiction|]. cbn [length Nat.eqb].
  unfold Py.contains. rewrite Hfind.
  rewrite bool_decide_eq_true_2 by (now eexists).
  cbn [or_raise mbind outcome_bind]. rewrite Hmass. cbn [mbind outcome_bind].
  destruct (Z.eqb_spec (mass_save h) 0) as [|_]; [contradiction|].
  destruct (Z.eqb_spec (mass_save h) mass) as [|_]; [congruence|]. reflexivity.
Qed.

Lemma mass_mismatch_in_file_witness :
  exists h,
    read_transit_header Example.pow_0_2 "E2" (Example.transit_head "50")
      (Header 0 None None None) = Ok (h, None, [])
    /\ mass_save h = 50
    /\ read_transit_lines Example.pow_0_2 ∅ 0%float false
         (Example.transit_head "50" ++ Example.transit_head "52" ++ Example.transit_table)%list
         "E2" = Raise RuntimeError.
Proof.
  eexists. split; [vm_compute; reflexivity|]. split; [reflexivity|].
  eapply (mass_mismatch_in_file Example.pow_0_2 ∅ 0%float false "E2"
            (Example.transit_head "50")
            (drop 1 (Example.transit_head "52") ++ Example.transit_table)%list
            (default "" (head (Example.transit_head "52"))));
    [vm_compute; reflexivity | vm_compute; discriminate | vm_compute; discriminate
    | vm_compute; reflexivity | vm_compute; reflexivity | vm_compute; discriminate].
Defined.

(** ** Numbers read from columns of fixed width *)

Lemma substring_length n m s : (String.length (String.substring n m s) <= m)%nat.
Proof.
  revert n m. induction s as [|c s IH]; intros [|n] [|m]; cbn; try lia.
  - specialize (IH 0%nat m). lia.
  - apply (IH n 0%nat).
  - apply (IH n (S m)).
Qed.

Lemma slice_length a b s : (String.length (Py.slice a b s) <= b - a)%nat.
Proof. apply substring_length. Qed.

Lemma lstrip_length s : (String.length (Py.lstrip s) <= String.length s)%nat.
Proof. induction s as [|c s IH]; cbn; [lia|]. destruct (Py.is_space c); cbn; lia. Qed.

Lemma rstrip_length s : (String.length (Py.rstrip s) <= String.length s)%nat.
Proof.
  induction s as [|c s IH]; cbn; [lia|]. destruct (_ && _); cbn; lia.
Qed.

Lemma strip_length s : (String.length (Py.strip s) <= String.length s)%nat.
Proof.
  unfold Py.strip. pose proof (rstrip_length (Py.lstrip s)). pose proof (lstrip_length s). lia.
Qed.

Lemma split_sign_length s :
  (String.length (Py.split_sign s).2 <= String.length s)%nat.
Proof.
  destruct s as [|c s]; [cbn; lia|].
  destruct c as [[] [] [] [] [] [] [] []]; cbn; lia.
Qed.

Lemma is_digit_val c : Py.is_digit c = true -> 0 <= Py.digit_val c <= 9.
Proof.
  unfold Py.is_digit, Py.digit_val. intros [H1 H2]%andb_prop.
  apply Z.leb_le in H1, H2. lia.
Qed.

Lemma scan_digits_bound s acc k v k' rest :
  Py.scan_digits s acc k = Some (v, k', rest) -> 0 <= acc ->
  acc <= v /\ v + 1 <= (acc + 1) * 10 ^ Z.of_nat (String.length s).
Proof.
  remember (String.length s) as n eqn:Hn.
  assert (Hlen : (String.length s <= n)%nat) by lia. clear Hn.
  revert s acc k Hlen. induction n as [|n IH]; intros s acc k Hlen.
  - destruct s; [|cbn in Hlen; lia]. cbn. intros [= <- _ _] Hacc. lia.
  - destruct s as [|c s]; [cbn; intros [= <- _ _] Hacc; nia|].
    cbn [String.length] in Hlen. intros H Hacc.
    rewrite Nat2Z.inj_succ, Z.pow_succ_r by lia.
    pose proof (Z.pow_pos_nonneg 10 (Z.of_nat n) ltac:(lia) ltac:(lia)) as Hpow.
    cbn [Py.scan_digits] in H. destruct (Py.is_digit c) eqn:Hc.
    + pose proof (is_digit_val c Hc) as Hd.
      destruct s as [|c' s']; [apply IH in H as [H1 H2]; [split; [lia|nia]|cbn; lia|lia]|].
      destruct (Ascii.eqb_spec c' "_") as [->|Hc'].
      * destruct s' as [|d s'']; [discriminate H|].
        destruct (Py.is_digit d); [|discriminate H].
        apply IH in H as [H1 H2]; [split; [lia|nia]|cbn in *; lia|lia].
      * assert (Hnext : Py.scan_digits (String c' s') (10 * acc + Py.digit_val c) (S k)
                        = Some (v, k', rest)).
        { destruct c' as [[] [] [] [] [] [] [] []]; try exact H; congruence. }
        apply IH in Hnext as [H1 H2]; [split; [lia|nia]|cbn in *; lia|lia].
    + injection H as <- _ _. split; [lia|nia].
Qed.

Lemma int_bound s z : Py.int s = Ok z -> Z.abs z < 10 ^ Z.of_nat (String.length s).
Proof.
  unfold Py.int, Py.int_opt.
  pose proof (split_sign_length (Py.strip s)) as Hsign.
  pose proof (strip_length s) as Hstrip.
  destruct (Py.split_sign (Py.strip s)) as [neg r]. cbn [snd] in Hsign.
  unfold Py.digit_part. destruct (Py.scan_digits r 0 0) as [[[v [|k]] rest]|] eqn:Hscan;
    try discriminate.
  destruct rest; [|discriminate].
  apply scan_digits_bound in Hscan as [H1 H2]; [|lia].
  assert (10 ^ Z.of_nat (String.length r) <= 10 ^ Z.of_nat (String.length s))
    by (apply Z.pow_le_mono_r; lia).
  cbn. intros [= <-]. destruct neg; lia.
Qed.

Lemma int_slice_3 a s z : Py.int (Py.slice a (a + 3) s) = Ok z -> -1000 < z < 1000.
Proof.
  intros H%int_bound. pose proof (slice_length a (a + 3) s) as Hlen.
  assert (10 ^ Z.of_nat (String.length (Py.slice a (a + 3) s)) <= 10 ^ 3)
    by (apply Z.pow_le_mono_r; lia).
  lia.
Qed.

(** [spin_to_string] returns for the doubled spins of three characters. *)
Lemma spin_to_string_returns z : -1000 < z < 1000 -> returns (spin_to_string z) = true.
Proof.
  intros Hz. destruct (Z.ltb_spec z 0) as [Hneg|Hpos].
  - unfold spin_to_string. apply Z.ltb_lt in Hneg. now rewrite Hneg.
  - assert (Hall : forallb (fun n => returns (spin_to_string (Z.of_nat n))) (seq 0 1000) = true)
      by (vm_compute; reflexivity).
    rewrite forallb_forall in Hall. specialize (Hall (Z.to_nat z)).
    rewrite Z2Nat.id in Hall by lia. apply Hall, in_seq. lia.
Qed.

(** ** The levels *)

Section Levels.
#[local] Open Scope list_scope.

Lemma Forall_dict_set {V : Type} (P : float * V -> Prop) k v (d : dict V) :
  (forall k', P (k', v)) -> Forall P d -> Forall P (dict_set k v d).
Proof.
  intros Hv. induction 1 as [|[k' v'] d HP Hd IH]; cbn.
  - constructor; [apply Hv|constructor].
  - destruct (PrimFloat.eqb k' k); constructor; auto.
Qed.

Lemma read_energy_logfiles_small_spins fuel dir energy_log_files E_data :
  read_energy_logfiles fuel dir energy_log_files [] = Ok E_data ->
  Forall small_spins E_data.
Proof.
  apply (read_energy_logfiles_ind (Forall small_spins)); [|constructor].
  intros filename E line1 line2 _ n_eig energy energy' spin parity tt' HE _ _ Hspin _ _ Htt.
  apply Forall_dict_set; [|exact HE]. intros k'. cbn. split.
  - exact (int_slice_3 45 _ _ Hspin).
  - exact (int_slice_3 45 _ _ Htt).
Qed.

Lemma insort_Permutation {V : Type} (x : float * V) l : insort x l ≡ₚ x :: l.
Proof.
  induction l as [|y l IH]; cbn; [reflexivity|].
  destruct (PrimFloat.ltb x.1 y.1); [reflexivity|].
  rewrite IH. apply perm_swap.
Qed.

Lemma foldl_insort_Permutation {V : Type} (d acc : list (float * V)) :
  foldl (fun acc x => insort x acc) acc d ≡ₚ acc ++ d.
Proof.
  revert acc. induction d as [|x d IH]; intros acc; cbn; [now rewrite app_nil_r|].
  rewrite IH, insort_Permutation. cbn. apply Permutation_middle.
Qed.

Lemma sorted_items_Permutation {V : Type} (d : dict V) : sorted_items d ≡ₚ d.
Proof. apply (foldl_insort_Permutation d []). Qed.

Lemma assign_indices_small_spins levels spo n_jnp :
  Forall small_spins levels ->
  Forall small_spins (assign_indices levels spo n_jnp).1
  /\ length (assign_indices levels spo n_jnp).1 = length levels.
Proof.
  intros H. revert spo n_jnp.
  induction H as [|[energy [[[[filename spin] parity] n_eig] tt']] levels Hl _ IH];
    intros spo n_jnp; cbn; [split; [constructor|reflexivity]|].
  destruct (assign_indices levels _ _) as [levels' n'] eqn:Hrec.
  specialize (IH (<[(spin, parity) := match spo !! (spin, parity) with
                                       | Some c => c + 1
                                       | None => 1
                                       end]> spo)
                 (<[(spin, parity, n_eig) := match spo !! (spin, parity) with
                                              | Some c => c + 1
                                              | None => 1
                                              end]> n_jnp)).
  rewrite Hrec in IH. cbn in *. destruct IH as [IH1 IH2].
  split; [constructor; assumption|now rewrite IH2].
Qed.

Lemma write_levels_small_spins i levels E_gs :
  Forall small_spins levels ->
  (write_levels i levels E_gs).2 = Ok ()
  /\ length (write_levels i levels E_gs).1 = length levels.
Proof.
  intros H. revert i.
  induction H as [|[energy [[[[filename spin] parity] n_eig] tt']] levels [Hs Ht] _ IH];
    intros i; cbn [write_levels]; [split; reflexivity|].
  pose proof (spin_to_string_returns spin Hs) as HJ.
  pose proof (spin_to_string_returns tt' Ht) as HT.
  destruct (spin_to_string spin) as [J| |]; try discriminate HJ.
  destruct (spin_to_string tt') as [T| |]; try discriminate HT.
  cbn [mbind outcome_bind]. specialize (IH (i + 1)).
  destruct (write_levels (i + 1) levels E_gs) as [rest e]. cbn in *.
  destruct IH as [-> ->]. split; reflexivity.
Qed.
End Levels.

(** ** The name of the summary file *)

Section SummaryName.
#[local] Open Scope list_scope.

Lemma scan_digits_zeros a s n :
  Py.startswith "_" s = false ->
  Py.scan_digits (Py.repeat_chr "0" a ++ s)%string 0 n = Py.scan_digits s 0 (a + n)
  /\ Py.startswith "_" (Py.repeat_chr "0" a ++ s)%string = false.
Proof.
  intros Hs. revert n. induction a as [|a IH]; intros n; [now split|].
  change (Py.repeat_chr "0" (S a) ++ s)%string
    with (String "0" (Py.repeat_chr "0" a ++ s)%string).
  destruct (IH (S n)) as [IH1 IH2].
  rewrite scan_digits_step by (reflexivity || exact IH2).
  split; [|reflexivity]. change (10 * 0 + Py.digit_val "0") with 0.
  rewrite IH1. f_equal. lia.
Qed.

Lemma scan_digits_format_0d w k :
  0 <= k -> exists n, Py.scan_digits (Py.format_0d w k ++ ".txt")%string 0 0
                      = Some (k, n, ".txt").
Proof.
  intros Hk. unfold Py.format_0d. apply Z.ltb_ge in Hk as Hk'. rewrite Hk'.
  rewrite append_assoc.
  destruct (scan_digits_digits (Z.to_nat (Z.log2 k)) k ".txt" (w - String.length (Py.str_nonneg k) + 0)
              (str_nonneg_bound k Hk) eq_refl) as (m & Hm & Hu).
  fold (Py.str_nonneg k) in Hm, Hu.
  destruct (scan_digits_zeros (w - String.length (Py.str_nonneg k))
              (Py.str_nonneg k ++ ".txt")%string 0 Hu) as [Hz _].
  rewrite Hz, Hm. now exists (S m).
Qed.

Lemma summary_file_inj isotope model_space k k' :
  0 <= k -> 0 <= k' ->
  summary_file isotope model_space k = summary_file isotope model_space k' -> k = k'.
Proof.
  intros Hk Hk'. unfold summary_file.
  intros H. do 5 apply String.app_inj in H.
  destruct (scan_digits_format_0d 3 k Hk) as [n Hn].
  destruct (scan_digits_format_0d 3 k' Hk') as [n' Hn'].
  rewrite H in Hn. congruence.
Qed.

Lemma in_list_In s l : in_list s l = true <-> In s l.
Proof.
  unfold in_list. rewrite existsb_exists. split.
  - intros (x & Hx & ->%String.eqb_eq). exact Hx.
  - intros H. exists s. split; [exact H|apply String.eqb_refl].
Qed.

(** The search runs out of fuel only when every name it tried is taken. *)
Lemma summary_name_Timeout fuel dir isotope model_space k :
  summary_name fuel dir isotope model_space k = Timeout ->
  forall j, (j < fuel)%nat -> In (summary_file isotope model_space (k + Z.of_nat j)) dir.*1.
Proof.
  revert k. induction fuel as [|fuel IH]; intros k H j Hj; [lia|].
  cbn [summary_name] in H.
  destruct (in_list _ dir.*1) eqn:Hin; [|discriminate].
  destruct j as [|j].
  - rewrite Z.add_0_r. now apply in_list_In.
  - replace (k + Z.of_nat (S j)) with (k + 1 + Z.of_nat j) by lia. apply IH; [exact H|lia].
Qed.

Lemma summary_name_Ok fuel dir isotope model_space k :
  0 <= k -> (length dir < fuel)%nat ->
  exists counter, summary_name fuel dir isotope model_space k
                  = Ok (summary_file isotope model_space counter).
Proof.
  intros Hk Hfuel.
  destruct (summary_name fuel dir isotope model_space k) as [name|e|] eqn:Hname.
  - clear Hfuel. revert k Hk Hname. induction fuel as [|fuel IH]; intros k Hk; [discriminate|].
    cbn [summary_name]. destruct (in_list _ _).
    + apply IH. lia.
    + intros [= <-]. now exists k.
  - exfalso. clear Hfuel. revert k Hk Hname. induction fuel as [|fuel IH]; intros k Hk; [discriminate|].
    cbn [summary_name]. destruct (in_list _ _); [apply IH; lia|discriminate].
  - exfalso. pose proof (summary_name_Timeout _ _ _ _ _ Hname) as Htaken.
    set (names := (fun j => summary_file isotope model_space (k + Z.of_nat j)) <$> seq 0 fuel).
    assert (Hnodup : NoDup names).
    { apply NoDup_fmap_2_strong; [|apply NoDup_seq].
      intros i j _ _ Hij. apply summary_file_inj in Hij; lia. }
    assert (Hincl : names ⊆ dir.*1).
    { intros name (j & -> & Hj%elem_of_seq)%list_elem_of_fmap.
      apply list_elem_of_In, Htaken. lia. }
    apply (NoDup_submseteq _ _ Hnodup) in Hincl. apply submseteq_length in Hincl.
    unfold names in Hincl. rewrite !length_fmap, length_seq in Hincl. lia.
Qed.
End SummaryName.

(** ** The aggregator: missing data *)

(** C8, as stated, fails on a directory whose only log is an energy log
    named [log_V50.txt]: the log gives one level and there is no transition
    log, but the name of the summary file is built from the third field of
    the name of the first energy log, which this name does not have, and
    the run ends with [IndexError] before a summary is opened. *)
Lemma levels_only_needs_model_space :
  for_every_pow (fun libm_pow =>
    let r := collect_logs libm_pow 9 Example.dir_short_name [] ∅ 0%float "new" in
    discover Example.dir_short_name [] = Ok (["log_V50.txt"], [])
    /\ read_energy_logfiles 9 Example.dir_short_name ["log_V50.txt"] []
       = Ok [((-20)%float, ("log_V50.txt", 0, "+", 1, 4))]
    /\ ended r = Raise IndexError
    /\ summary r = None).
Proof. intros libm_pow. repeat split; vm_compute; reflexivity. Qed.

(** C8, amended. Let the mode selector be valid and let the directory give
    the energy logs and transition logs of [discover]. With no energy log
    the run ends with [FileNotFoundError], and with an energy table that is
    empty after parsing with [RuntimeError], and no summary is opened. With
    no transition log, a table that is not empty, and a first energy log
    whose name has a third field, the model space, the run issues the
    warning, ends normally and writes a summary that holds the heading, one
    line for each level and an empty line, and no transition block. *)
Theorem levels_only_summary libm_pow fuel dir stdin n_jnp0 E_gs0 old_or_new
    energy_log_files transit_log_files :
  in_list (Py.lower old_or_new) allowed_old_or_new = true ->
  discover dir stdin = Ok (energy_log_files, transit_log_files) ->
  let r := collect_logs libm_pow fuel dir stdin n_jnp0 E_gs0 old_or_new in
  (energy_log_files = [] -> ended r = Raise FileNotFoundError /\ summary r = None)
  /\ (energy_log_files <> [] ->
      read_energy_logfiles fuel dir energy_log_files [] = Ok [] ->
      ended r = Raise RuntimeError /\ summary r = None)
  /\ (forall E_data log_file model_space,
        transit_log_files = [] ->
        head energy_log_files = Some log_file ->
        Py.item (Py.split_on "_" log_file) 2 = Ok model_space ->
        read_energy_logfiles fuel dir energy_log_files [] = Ok E_data ->
        E_data <> [] ->
        (length dir < fuel)%nat ->
        ended r = Ok ()
        /\ warnings r = ["No transit log files in path '.'."]
        /\ exists isotope counter lines,
             summary r = Some (summary_file isotope model_space counter,
                               (levels_heading ++ lines ++ [Py.nl])%list)
             /\ length lines = length E_data).
Proof.
  intros Hmode Hdiscover r. subst r. unfold collect_logs.
  rewrite Hmode, Hdiscover. cbn [negb]. split; [|split].
  - intros ->. split; reflexivity.
  - intros Hfiles Hread. destruct energy_log_files as [|f files]; [contradiction|].
    cbn [length Nat.eqb]. unfold read_levels. rewrite Hread. split; reflexivity.
  - intros E_data log_file model_space -> Hhead Hspace Hread HE Hfuel.
    destruct energy_log_files as [|f files]; [discriminate|]. injection Hhead as ->.
    cbn [length Nat.eqb Nat.ltb Nat.leb head default]. unfold read_levels. rewrite Hread.
    cbn [mbind outcome_bind].
    destruct E_data as [|l E]; [contradiction|]. cbn [dict_keys fmap list_fmap length Nat.eqb].
    pose proof (read_energy_logfiles_small_spins _ _ _ _ Hread) as Hsmall.
    rewrite <- (sorted_items_Permutation (l :: E)) in Hsmall.
    pose proof (assign_indices_small_spins _ ∅ n_jnp0 Hsmall) as [Hsmall' Hlen].
    destruct (assign_indices (sorted_items (l :: E)) ∅ n_jnp0) as [levels n_jnp].
    cbn [fst] in Hsmall', Hlen.
    unfold Py.item in Hspace |- *. change (Datatypes.id log_file) with log_file.
    destruct (Py.split_on "_" log_file) as [|p0 [|isotope [|space parts]]]; try discriminate.
    cbn in Hspace. injection Hspace as ->. cbn [lookup list_lookup or_raise mbind outcome_bind].
    destruct (summary_name_Ok fuel dir isotope model_space 0 ltac:(lia) Hfuel) as [counter ->].
    pose proof (write_levels_small_spins 0 levels
                  (default E_gs0 (head levels.*1)) Hsmall') as [Hend Hlines].
    destruct (write_levels 0 levels _) as [lines e]. cbn [fst snd] in Hend, Hlines. subst e.
    cbn [ended warnings summary]. split; [reflexivity|]. split; [reflexivity|].
    exists isotope, counter, lines. split; [reflexivity|].
    rewrite Hlines, Hlen. exact (Permutation_length (sorted_items_Permutation (l :: E))).
Qed.

Lemma levels_only_summary_witness :
  let r := collect_logs Example.pow_0_2 9 Example.dir_levels_only [] ∅ 0%float "new" in
  (ended r = Ok ()
   /\ warnings r = ["No transit log files in path '.'."]
   /\ exists isotope counter lines,
        summary r = Some (summary_file isotope "gxpf1a" counter,
                          (levels_heading ++ lines ++ [Py.nl])%list)
        /\ length lines = 1%nat)
  /\ (let r := collect_logs Example.pow_0_2 9 Example.dir_no_levels [] ∅ 0%float "new" in
      ended r = Raise RuntimeError /\ summary r = None)
  /\ (let r := collect_logs Example.pow_0_2 9 Example.dir_no_energy_log [] ∅ 0%float "new" in
      ended r = Raise FileNotFoundError /\ summary r = None).
Proof.
  split; [|split].
  - apply (proj2 (proj2 (levels_only_summary Example.pow_0_2 9 Example.dir_levels_only []
                           ∅ 0%float "new" ["log_V50_gxpf1a_j0p.txt"] [] eq_refl eq_refl))
             [((-20)%float, ("log_V50_gxpf1a_j0p.txt", 0, "+", 1, 4))]
             "log_V50_gxpf1a_j0p.txt" "gxpf1a");
      try reflexivity; [discriminate | cbn; lia].
  - apply (proj1 (proj2 (levels_only_summary Example.pow_0_2 9 Example.dir_no_levels []
                           ∅ 0%float "new" ["log_V50_gxpf1a_j0p.txt"] [] eq_refl eq_refl)));
      [discriminate | reflexivity].
  - apply (proj1 (levels_only_summary Example.pow_0_2 9 Example.dir_no_energy_log []
                    ∅ 0%float "new" [] ["log_V50_gxpf1a_tr_j0p_j4p.txt"] eq_refl eq_refl)).
    reflexivity.
Defined.

(** ** The order of the energies *)

Ltac compare_cases :=
  change (PosDef.Pos.compare_cont Eq ?a ?b) with (Pos.compare a b) in *;
  repeat match goal with
         | H : context [Z.compare ?a ?b] |- _ => destruct (Z.compare_spec a b)
         | |- context [Z.compare ?a ?b] => destruct (Z.compare_spec a b)
         | H : context [Pos.compare ?a ?b] |- _ => destruct (Pos.compare_spec a b)
         | |- context [Pos.compare ?a ?b] => destruct (Pos.compare_spec a b)
         end;
  cbn in *; try discriminate; try reflexivity; try lia.

Lemma SFcompare_Lt_trans a b c :
  SFcompare a b = Some Lt -> SFcompare b c = Some Lt -> SFcompare a c = Some Lt.
Proof.
  destruct a as [[]|[]| |[] m1 e1], b as [[]|[]| |[] m2 e2], c as [[]|[]| |[] m3 e3];
    cbn; try discriminate; try reflexivity; intros H1 H2; compare_cases.
Qed.

Lemma float_ltb_Lt x y :
  PrimFloat.ltb x y = true <-> SFcompare (Prim2SF x) (Prim2SF y) = Some Lt.
Proof.
  rewrite ltb_spec. unfold SFltb.
  destruct (SFcompare (Prim2SF x) (Prim2SF y)) as [[]|]; split; congruence.
Qed.

Lemma float_ltb_trans x y z :
  PrimFloat.ltb x y = true -> PrimFloat.ltb y z = true -> PrimFloat.ltb x z = true.
Proof. rewrite !float_ltb_Lt. apply SFcompare_Lt_trans. Qed.




Section Sorting.
Context {V : Type}.
#[local] Open Scope list_scope.
Implicit Types (x y : float * V) (l d acc : list (float * V)).

Lemma unambiguous_Permutation (l1 l2 : list float) :
  l1 ≡ₚ l2 -> unambiguous l1 -> unambiguous l2.
Proof.
  induction 1 as [|e l1 l2 Hperm IH|e e' l|l1 l2 l3 _ IH1 _ IH2]; cbn.
  - trivial.
  - intros [He Hl]. split; [now rewrite <- Hperm|auto].
  - intros [[He He']%Forall_cons [He'' Hl]]. repeat split; try assumption.
    constructor; [tauto|assumption].
  - auto.
Qed.


Lemma insort_sorted x l :
  StronglySorted key_lt l ->
  Forall (fun y => key_lt x y \/ key_lt y x) l ->
  StronglySorted key_lt (insort x l).
Proof.
  induction 1 as [|y l Hl IH Hy]; intros Hx; cbn; [repeat constructor|].
  apply Forall_cons in Hx as [Hxy Hx].
  destruct (PrimFloat.ltb x.1 y.1) eqn:Hlt.
  - constructor; [now constructor|]. constructor; [exact Hlt|].
    eapply Forall_impl; [exact Hy|]. intros z Hz. exact (float_ltb_trans _ _ _ Hlt Hz).
  - constructor; [now apply IH|].
    rewrite insort_Permutation. constructor; [|exact Hy].
    destruct Hxy as [Hxy|Hxy]; [unfold key_lt in Hxy; congruence|exact Hxy].
Qed.

Lemma foldl_insort_sorted d acc :
  StronglySorted key_lt acc -> unambiguous (acc ++ d).*1 ->
  StronglySorted key_lt (foldl (fun acc x => insort x acc) acc d).
Proof.
  revert acc. induction d as [|x d IH]; intros acc Hacc Hkeys; [exact Hacc|].
  cbn. assert (Hperm : (x :: acc ++ d).*1 ≡ₚ (acc ++ x :: d).*1)
    by (apply fmap_Permutation, Permutation_middle).
  apply (unambiguous_Permutation _ _ (symmetry Hperm)) in Hkeys as Hkeys'.
  destruct Hkeys' as [Hx Hrest]. apply IH.
  - apply insort_sorted; [exact Hacc|].
    rewrite fmap_app, Forall_app in Hx. destruct Hx as [Hx _].
    rewrite Forall_fmap in Hx. exact Hx.
  - eapply unambiguous_Permutation; [|exact Hkeys].
    apply fmap_Permutation. rewrite insort_Permutation. cbn.
    symmetry. apply Permutation_middle.
Qed.

End Sorting.

(** ** Reading an energy log into a table that holds other energies *)

Section Extension.
#[local] Open Scope list_scope.
Implicit Types (E T : dict level).











End Extension.

(** ** The aggregator: the order of the energy logs *)




(** * Further properties of the parsers and of the aggregator *)

(** ** The energy log parser: where reading starts *)

(** A line of 14 characters or more fails one of the two marker tests,
    whatever it begins with. *)
Lemma long_line_no_marker line :
  14 <= Py.len line ->
  String.eqb line "" = false
  /\ ((11 <=? Py.len line) && negb (String.eqb (Py.slice 0 11 line) "H converged")
      || (14 <=? Py.len line) && negb (String.eqb (Py.slice 0 14 line) "H bn converged")) = true.
Proof.
  intros Hlen. split.
  - destruct line; [unfold Py.len in Hlen; cbn [String.length] in Hlen; lia|reflexivity].
  - assert (H11 : (11 <=? Py.len line) = true) by (apply Z.leb_le; lia).
    assert (H14 : (14 <=? Py.len line) = true) by (apply Z.leb_le; lia).
    rewrite H11, H14. cbn [andb].
    unfold Py.len in Hlen.
    do 14 (destruct line as [|? line]; [cbn [String.length] in Hlen; lia|]).
    unfold Py.slice. cbn [Nat.sub String.substring].
    destruct line; cbn [String.substring String.eqb].
    all: repeat match goal with
         | |- context [Ascii.eqb ?a ?b] =>
             destruct (Ascii.eqb_spec a b); subst; cbn [andb orb negb]
         end; try reflexivity; try congruence.
Qed.

(** X1. A log of which every line has 14 characters or more, the line
    terminator counted, gives no record: such a line is never taken for the
    convergence marker, not even when it begins with [H converged] or with
    [H bn converged], and the table is returned as it was. *)
Theorem long_lines_are_skipped fuel filename infile (E_data : dict level) :
  Forall (fun line => 14 <= Py.len line) infile ->
  (length infile < fuel)%nat ->
  read_energy_lines fuel filename infile E_data = Ok E_data.
Proof.
  intros Hlong. revert fuel.
  induction Hlong as [|line infile Hline _ IH]; intros [|fuel] Hfuel;
    cbn in Hfuel; try lia; [reflexivity|].
  cbn [read_energy_lines readline].
  destruct (long_line_no_marker line Hline) as [-> Hskip].
  destruct ((11 <=? Py.len line) && negb (String.eqb (Py.slice 0 11 line) "H converged")).
  - apply IH. lia.
  - cbn in Hskip. rewrite Hskip. apply IH. lia.
Qed.

Lemma long_lines_are_skipped_witness :
  read_energy_lines 9 "log_Ni56_gxpf1a_j0n.txt"
    (("H converged in 28 iterations" ++ Py.nl) :: Example.state_0m) [] = Ok [].
Proof.
  apply long_lines_are_skipped; [|cbn; lia].
  repeat constructor; vm_compute; discriminate.
Defined.

Lemma startswith_app p s : Py.startswith p s = true -> exists rest, s = p ++ rest.
Proof.
  revert s. induction p as [|a p IH]; intros s; [now exists s|].
  destruct s as [|b s]; [discriminate|]. cbn [Py.startswith].
  intros [->%Ascii.eqb_eq (rest & ->)%IH]%andb_true_iff. now exists rest.
Qed.

Section Scan.
Context (filename : string).
#[local] Open Scope list_scope.

(** X2. The scan for the isospin passes over every line that does not
    have [ T:] in columns 42 to 44 and reads the isospin from the first
    line that has: with such a line in the file the scan returns, with the
    lines after it left to read. *)
Theorem read_isospin_skips fuel skipped line rest :
  Forall (fun l => Py.slice 42 45 l <> " T:"%string) skipped ->
  Py.slice 42 45 line = " T:"%string ->
  (length skipped < fuel)%nat ->
  read_isospin fuel (skipped ++ line :: rest)
  = tt' ← Py.int (Py.slice 45 48 line); Ok (tt', rest).
Proof.
  intros Hskip Hline. revert fuel.
  induction Hskip as [|l skipped Hl _ IH]; intros [|fuel] Hfuel; cbn [length] in Hfuel; try lia.
  - cbn [app read_isospin readline]. rewrite Hline. reflexivity.
  - cbn [app read_isospin readline]. apply String.eqb_neq in Hl. rewrite Hl. cbn [negb].
    apply IH. lia.
Qed.

Lemma read_isospin_skips_witness :
  read_isospin 3
    (["<p Nj>  5.944  3.678  1.489  3.267  0.123  0.456  0.043" +:+ Py.nl]
     ++ ("    <Hcm>:     0.00022  <TT>:     6.00000  T:  4/2              " +:+ Py.nl)
     :: ["hw:  1:1.000" +:+ Py.nl])
  = Ok (4, ["hw:  1:1.000" +:+ Py.nl]).
Proof.
  rewrite read_isospin_skips; [reflexivity| |reflexivity|cbn; lia].
  repeat constructor. vm_compute. discriminate.
Defined.

Lemma read_isospin_rest fuel infile tt' rest :
  read_isospin fuel infile = Ok (tt', rest) -> exists read, infile = read ++ rest.
Proof.
  revert infile. induction fuel as [|fuel IH]; intros infile; [discriminate|].
  cbn [read_isospin]. destruct infile as [|line infile]; cbn [readline].
  - change (negb (String.eqb (Py.slice 42 45 "") " T:")) with true. cbv iota.
    now rewrite read_isospin_at_end.
  - destruct (negb _).
    + intros (read & ->)%IH. now exists (line :: read).
    + intros H. bind_inv H. injection H as _ <-. now exists [line].
Qed.

(** The loop over the eigenstates only ends at the end of the file. *)
Lemma read_eigenstates_rest fuel infile (E_data E_data' : dict level) rest :
  Forall (fun line => line <> ""%string) infile ->
  read_eigenstates fuel filename infile E_data = Ok (E_data', rest) -> rest = [].
Proof.
  revert infile E_data. induction fuel as [|fuel IH]; intros infile E_data Hlines; [discriminate|].
  cbn [read_eigenstates]. destruct Hlines as [|line infile Hline Hlines]; cbn [readline].
  - cbn. now intros [= _ <-].
  - apply String.eqb_neq in Hline. rewrite Hline.
    destruct (String.eqb (Py.slice 6 10 line) "<H>:"); [|now apply IH].
    intros H. do 6 bind_inv H. destruct a4 as [tt' infile'].
    apply read_isospin_rest in Ha4 as [read ->]. apply Forall_app in Hlines as [_ Hlines].
    eapply IH; eassumption.
Qed.

(** X3. Reading starts at the first line that the marker tests let
    through, a line of fewer than 11 characters or the line [H converged]
    on its own, and goes on to the end of the file: what the parser returns
    is what the loop over the eigenstates makes of all the lines after it,
    and no later marker is looked for. (A line of a file is never empty:
    it holds its terminator at least.) *)
Theorem marker_starts_the_only_scan fuel line infile (E_data : dict level) :
  taken_for_marker line ->
  Forall (fun l => l <> ""%string) infile ->
  read_energy_lines (S (S fuel)) filename (line :: infile) E_data
  = '(E_data, _) ← read_eigenstates (S fuel) filename infile E_data; Ok E_data.
Proof.
  intros [Hline Hmarker] Hlines.
  cbn [read_energy_lines readline]. apply String.eqb_neq in Hline. rewrite Hline.
  assert (Htests : (11 <=? Py.len line)
                   && negb (String.eqb (Py.slice 0 11 line) "H converged") = false
                   /\ (14 <=? Py.len line) = false).
  { destruct Hmarker as [Hlen|[Hlen Hstart]].
    - split; [|apply Z.leb_gt; lia]. replace (11 <=? Py.len line) with false; [reflexivity|].
      symmetry. apply Z.leb_gt. lia.
    - split; [|apply Z.leb_gt; lia]. apply startswith_app in Hstart as [r ->].
      rewrite !append_cons, append_empty. unfold Py.slice. cbn [Nat.sub String.substring].
      replace (String.substring 0 0 r) with ""%string by now destruct r.
      apply andb_false_r. }
  destruct Htests as [-> ->]. cbn [andb].
  destruct (read_eigenstates (S fuel) filename infile E_data) as [[E rest]| |] eqn:Hread;
    cbn [mbind outcome_bind]; try reflexivity.
  apply read_eigenstates_rest in Hread as ->; [reflexivity|exact Hlines].
Qed.
End Scan.

Lemma marker_starts_the_only_scan_witness :
  read_energy_lines 9 "log_Ni56_gxpf1a_j0n.txt"
    (("H converged" +:+ Py.nl) :: Example.state_0m
     ++ ["H converged" +:+ Py.nl] ++ Example.state_0m)%list []
  = Ok [((-391.71288)%float, ("log_Ni56_gxpf1a_j0n.txt", 0, "-", 1, 4));
        ((-391.71288 + 0.000001)%float, ("log_Ni56_gxpf1a_j0n.txt", 0, "-", 1, 4))].
Proof.
  rewrite (marker_starts_the_only_scan "log_Ni56_gxpf1a_j0n.txt" 7).
  - vm_compute. reflexivity.
  - split; [discriminate|]. right. split; [vm_compute|]; reflexivity.
  - repeat constructor; discriminate.
Defined.

(** ** The energy log parser: what reading adds *)

(** X4. Reading an energy log only adds to the table: the records that
    were there stay in place, unchanged, and every record added carries the
    name of the log it was read from and the parity [+] or [-]. *)
Theorem read_energy_logfile_appends fuel dir filename (E_data E_data' : dict level) :
  read_energy_logfile fuel dir filename E_data = Ok E_data' ->
  exists added, E_data' = (E_data ++ added)%list /\ Forall (read_from filename) added.
Proof.
  unfold read_energy_logfile. intros H. bind_inv H.
  revert H. apply (read_energy_lines_ind filename
    (fun E => exists added, E = (E_data ++ added)%list /\ Forall (read_from filename) added)).
  - intros E line1 line2 fuel' n_eig energy energy' spin parity tt'
      (added & -> & Hadded) _ _ _ _ Hn _.
    apply nudge_Ok in Hn as (_ & _ & _ & Hfree & _).
    rewrite dict_set_fresh by exact Hfree.
    exists (added ++ [(energy', (filename, spin, parity_integer_to_string parity, n_eig, tt'))])%list.
    split; [now rewrite app_assoc|].
    apply Forall_app; split; [exact Hadded|]. constructor; [|constructor].
    split; [reflexivity|]. unfold parity_integer_to_string. destruct (parity =? 1); auto.
  - exists []. split; [now rewrite app_nil_r|constructor].
Qed.

Lemma read_energy_logfile_appends_witness :
  let old := [((-10)%float, ("log_Ni56_gxpf1a_j4p.txt", 4, "+", 1, 0))] in
  exists added,
    read_energy_logfile 9 Example.dir_Ni56 "log_Ni56_gxpf1a_m0n.txt" old = Ok (old ++ added)%list
    /\ Forall (read_from "log_Ni56_gxpf1a_m0n.txt") added /\ length added = 2%nat.
Proof.
  intros old.
  assert (H : read_energy_logfile 9 Example.dir_Ni56 "log_Ni56_gxpf1a_m0n.txt" old
              = Ok (old ++ [((-9.5)%float, ("log_Ni56_gxpf1a_m0n.txt", 0, "-", 1, 0));
                            ((-9)%float, ("log_Ni56_gxpf1a_m0n.txt", 4, "-", 2, 0))])%list)
    by (vm_compute; reflexivity).
  destruct (read_energy_logfile_appends _ _ _ _ _ H) as (added & Heq & Hadded).
  apply app_inv_head in Heq. subst added.
  eexists. split; [exact H|]. split; [exact Hadded|reflexivity].
Defined.

(** ** The formatters on what a log holds *)

(** X5. A doubled spin or isospin that is read from a field of three
    characters is rendered exactly: an even one as its half, an odd one as
    the fraction over 2, a negative one as it is. [spin_to_string] raises
    nothing on it. *)
Theorem spin_of_field_rendered a line spin :
  Py.int (Py.slice a (a + 3) line) = Ok spin ->
  spin_to_string spin = Ok (half_text spin).
Proof.
  intros Hs%int_slice_3. unfold half_text. destruct (Z.ltb_spec spin 0).
  - now apply spin_to_string_negative.
  - apply spin_to_string_exact. lia.
Qed.

Lemma spin_of_field_rendered_witness :
  Py.int (Py.slice 45 48 "   3  <H>:  -390.12345  <JJ>:     3.75000  J:  3/2  prty  1     ") = Ok 3
  /\ spin_to_string 3 = Ok "3/2".
Proof.
  assert (H : Py.int (Py.slice 45 48
                "   3  <H>:  -390.12345  <JJ>:     3.75000  J:  3/2  prty  1     ") = Ok 3)
    by (vm_compute; reflexivity).
  split; [exact H|]. exact (spin_of_field_rendered 45 _ 3 H).
Defined.

(** ** The indices of the levels *)

Section Indices.
#[local] Open Scope list_scope.

Lemma same_spin_parity_spec spin parity (l : float * level) :
  same_spin_parity spin parity l = true <-> (index_key l).1 = (spin, parity).
Proof.
  destruct l as [e [[[[f s] p] n] t]]. cbn.
  rewrite andb_true_iff, Z.eqb_eq, String.eqb_eq. split; [intros [-> ->]|intros [= -> ->]]; auto.
Qed.

Lemma occurrences_cons spin parity l levels :
  occurrences spin parity (l :: levels)
  = (if same_spin_parity spin parity l then 1 else 0) + occurrences spin parity levels.
Proof.
  unfold occurrences. rewrite filter_cons.
  destruct (same_spin_parity spin parity l) eqn:Hl.
  - rewrite decide_True by reflexivity. cbn [length]. lia.
  - rewrite decide_False by discriminate. lia.
Qed.

(** One round of the loop over the sorted energies. *)
Lemma assign_indices_cons l levels spo n_jnp :
  let sp := (index_key l).1 in
  let count := default 0 (spo !! sp) + 1 in
  assign_indices (l :: levels) spo n_jnp
  = let r := assign_indices levels (<[sp := count]> spo) (<[index_key l := count]> n_jnp) in
    (with_index l count :: r.1, r.2).
Proof.
  destruct l as [e [[[[f s] p] n] t]]. cbn [assign_indices index_key fst with_index].
  destruct (spo !! (s, p)) as [c|]; cbn [default];
    destruct (assign_indices levels _ _); reflexivity.
Qed.

Lemma assign_indices_lookup levels spo n_jnp i l :
  levels !! i = Some l ->
  let sp := (index_key l).1 in
  (assign_indices levels spo n_jnp).1 !! i
  = Some (with_index l (default 0 (spo !! sp) + occurrences sp.1 sp.2 (take (S i) levels))).
Proof.
  revert spo n_jnp i. induction levels as [|l0 levels IH]; intros spo n_jnp [|i] Hl;
    try discriminate.
  - injection Hl as ->. rewrite assign_indices_cons. cbn [fst lookup list_lookup take].
    rewrite occurrences_cons.
    replace (same_spin_parity _ _ l) with true.
    2:{ symmetry. apply same_spin_parity_spec. now destruct (index_key l).1. }
    unfold occurrences. cbn. reflexivity.
  - cbn in Hl. rewrite assign_indices_cons. cbn [fst lookup list_lookup].
    rewrite (IH _ _ _ Hl). cbn zeta. do 2 f_equal.
    change (take (S (S i)) (l0 :: levels)) with (l0 :: take (S i) levels).
    rewrite occurrences_cons.
    destruct (same_spin_parity _ _ l0) eqn:Hsame.
    + apply same_spin_parity_spec in Hsame.
      replace ((index_key l).1.1, (index_key l).1.2) with (index_key l).1 in Hsame
        by now destruct (index_key l).1.
      rewrite Hsame, lookup_insert_eq. cbn [default]. unfold Datatypes.id. lia.
    + rewrite lookup_insert_ne; [lia|].
      intros Heq. apply not_true_iff_false in Hsame. apply Hsame.
      apply same_spin_parity_spec. rewrite Heq. now destruct (index_key l).1.
Qed.

Lemma assign_indices_other levels spo n_jnp k :
  k ∉ index_key <$> levels -> (assign_indices levels spo n_jnp).2 !! k = n_jnp !! k.
Proof.
  revert spo n_jnp. induction levels as [|l levels IH]; intros spo n_jnp Hk; [reflexivity|].
  rewrite assign_indices_cons. cbn [snd]. rewrite fmap_cons, not_elem_of_cons in Hk.
  destruct Hk as [Hne Hk]. rewrite IH by exact Hk. now rewrite lookup_insert_ne.
Qed.

Lemma assign_indices_recorded levels spo n_jnp i l :
  NoDup (index_key <$> levels) -> levels !! i = Some l ->
  let sp := (index_key l).1 in
  (assign_indices levels spo n_jnp).2 !! index_key l
  = Some (default 0 (spo !! sp) + occurrences sp.1 sp.2 (take (S i) levels)).
Proof.
  revert spo n_jnp i. induction levels as [|l0 levels IH]; intros spo n_jnp [|i] Hdup Hl;
    try discriminate; rewrite fmap_cons, NoDup_cons in Hdup; destruct Hdup as [Hfresh Hdup].
  - injection Hl as ->. rewrite assign_indices_cons. cbn [snd take].
    rewrite assign_indices_other by exact Hfresh. rewrite lookup_insert_eq.
    rewrite occurrences_cons.
    replace (same_spin_parity _ _ l) with true.
    2:{ symmetry. apply same_spin_parity_spec. now destruct (index_key l).1. }
    unfold occurrences. cbn. reflexivity.
  - cbn in Hl. pose proof (assign_indices_lookup (l0 :: levels) spo n_jnp (S i) l Hl) as Hi.
    rewrite assign_indices_cons in Hi |- *. cbn [fst snd lookup list_lookup] in Hi |- *.
    rewrite (IH _ _ _ Hdup Hl). rewrite (assign_indices_lookup _ _ _ _ _ Hl) in Hi.
    cbn zeta in Hi |- *. injection Hi as Hi. f_equal.
    destruct l as [e [[[[f s] p] n] t]]. cbn in Hi |- *. congruence.
Qed.

Lemma assign_indices_keys levels spo n_jnp :
  (assign_indices levels spo n_jnp).1.*1 = levels.*1.
Proof.
  revert spo n_jnp. induction levels as [|l levels IH]; intros spo n_jnp; [reflexivity|].
  rewrite assign_indices_cons. cbn [fst fmap list_fmap]. cbn [fmap] in IH. rewrite IH.
  now destruct l as [e [[[[f s] p] n] t]].
Qed.

(** X6. The loop over the sorted energies gives a level, as its index,
    the number of levels of its spin and parity from the lowest energy up
    to its own: the lowest level of a spin and parity gets 1, the next 2,
    and so on. Energy, log name, spin, parity and isospin are kept. *)
Theorem index_counts_levels levels n_jnp0 i energy filename spin parity n_eig tt' :
  levels !! i = Some (energy, (filename, spin, parity, n_eig, tt')) ->
  (assign_indices levels ∅ n_jnp0).1 !! i
  = Some (energy, (filename, spin, parity, occurrences spin parity (take (S i) levels), tt')).
Proof.
  intros Hl. rewrite (assign_indices_lookup _ _ _ _ _ Hl). cbn.
  rewrite lookup_empty. cbn. do 5 f_equal.
Qed.

Lemma index_counts_levels_witness :
  let levels := [((-21)%float, ("log_V50_gxpf1a_m0p.txt", 8, "+", 1, 4));
                 ((-20)%float, ("log_V50_gxpf1a_j0p.txt", 0, "+", 1, 4));
                 ((-19)%float, ("log_V50_gxpf1a_m0p.txt", 0, "+", 7, 4))] in
  (assign_indices levels ∅ ∅).1 !! 2%nat
  = Some ((-19)%float, ("log_V50_gxpf1a_m0p.txt", 0, "+", 2, 4)).
Proof.
  intros levels.
  exact (index_counts_levels levels ∅ 2 (-19)%float "log_V50_gxpf1a_m0p.txt" 0 "+" 7 4 eq_refl).
Defined.

(** X7. What the loop leaves in [n_jnp]. An entry whose key is not the
    spin, parity and eigenstate number of a level is left as it was before
    the call: the table is never emptied. When no two levels have the same
    spin, parity and eigenstate number, the entry of a level is the index
    that the level is given. *)
Theorem n_jnp_after_assignment levels n_jnp0 :
  let r := assign_indices levels ∅ n_jnp0 in
  (forall k, k ∉ index_key <$> levels -> r.2 !! k = n_jnp0 !! k)
  /\ (NoDup (index_key <$> levels) ->
      forall i l l', levels !! i = Some l -> r.1 !! i = Some l' ->
                     r.2 !! index_key l = Some (index_key l').2).
Proof.
  split; [intros k; apply assign_indices_other|].
  intros Hdup i l l' Hl Hl'. rewrite (assign_indices_lookup _ _ _ _ _ Hl) in Hl'.
  injection Hl' as <-. rewrite (assign_indices_recorded _ _ _ _ _ Hdup Hl).
  now destruct l as [e [[[[f s] p] n] t]].
Qed.

Lemma n_jnp_after_assignment_witness :
  let levels := [((-21)%float, ("log_V50_gxpf1a_m0p.txt", 8, "+", 1, 4));
                 ((-20)%float, ("log_V50_gxpf1a_j0p.txt", 0, "+", 1, 4));
                 ((-19)%float, ("log_V50_gxpf1a_m0p.txt", 0, "+", 7, 4))] in
  let old : index_table := {[ (4, "-", 1) := 5 ]} in
  (assign_indices levels ∅ old).2 !! (4, "-", 1) = Some 5
  /\ (assign_indices levels ∅ old).2 !! (0, "+", 7) = Some 2.
Proof.
  intros levels old.
  destruct (n_jnp_after_assignment levels old) as [Hother Hlevel]. split.
  - rewrite Hother; [reflexivity|]. cbn. rewrite !not_elem_of_cons.
    repeat split; try discriminate. apply not_elem_of_nil.
  - apply (Hlevel ltac:(cbn; repeat constructor; rewrite ?not_elem_of_cons;
                         repeat split; try discriminate; apply not_elem_of_nil)
             2%nat ((-19)%float, ("log_V50_gxpf1a_m0p.txt", 0, "+", 7, 4))
             ((-19)%float, ("log_V50_gxpf1a_m0p.txt", 0, "+", 2, 4))); reflexivity.
Defined.
End Indices.

(** ** The order of the levels *)

Section Order.
#[local] Open Scope list_scope.

(** Two numbers that are not [==] are ordered by [<]. *)
Lemma float_trichotomy x y :
  is_number x -> is_number y -> PrimFloat.eqb x y = false ->
  PrimFloat.ltb x y = true \/ PrimFloat.ltb y x = true.
Proof.
  unfold is_number. rewrite !FloatAxioms.eqb_spec, !ltb_spec. unfold SFeqb, SFltb.
  rewrite (SFcompare_swap (Prim2SF x) (Prim2SF y)).
  destruct (Prim2SF x) as [[]|[]| |[] m1 e1], (Prim2SF y) as [[]|[]| |[] m2 e2];
    cbn; try discriminate; auto; intros _ _; compare_cases; auto.
Qed.

Lemma distinct_keys_unambiguous {V : Type} (d : dict V) :
  distinct_keys d -> Forall is_number (dict_keys d) -> unambiguous (dict_keys d).
Proof.
  induction d as [|[k v] d IH]; cbn; [auto|].
  intros [Hfresh Hd] [Hk Hnum]%Forall_cons. split; [|now apply IH].
  unfold dict_mem in Hfresh. rewrite <- not_true_iff_false, existsb_exists in Hfresh.
  apply Forall_forall. intros k' Hk'.
  apply float_trichotomy; [exact Hk|exact (proj1 (Forall_forall _ _) Hnum k' Hk')|].
  rewrite float_eqb_sym. apply not_true_iff_false. intros Heq. apply Hfresh.
  exists k'. split; [now apply list_elem_of_In|exact Heq].
Qed.

Lemma read_energy_logfiles_distinct fuel dir energy_log_files E_data :
  read_energy_logfiles fuel dir energy_log_files [] = Ok E_data -> distinct_keys E_data.
Proof.
  apply (read_energy_logfiles_ind distinct_keys); [|exact I].
  intros filename E _ _ fuel' n_eig energy energy' spin parity tt' HE _ _ _ _ Hn _.
  apply nudge_Ok in Hn as (_ & _ & _ & Hfree & _).
  rewrite dict_set_fresh by exact Hfree. now apply distinct_keys_snoc.
Qed.

Lemma sorted_by_keys {V W : Type} (l : list (float * V)) (l' : list (float * W)) :
  l.*1 = l'.*1 -> StronglySorted key_lt l -> StronglySorted key_lt l'.
Proof.
  revert l'. induction l as [|x l IH]; intros [|x' l'] Hkeys Hl; try discriminate; [constructor|].
  injection Hkeys as Hx Hkeys'. assert (Hkeys : l.*1 = l'.*1) by exact Hkeys'.
  apply StronglySorted_inv in Hl as [Hl Hx'].
  constructor; [now apply IH|].
  apply Forall_forall. intros y' Hy'.
  assert (Hin : y'.1 ∈ l'.*1) by (apply list_elem_of_fmap; eauto).
  rewrite <- Hkeys in Hin. apply list_elem_of_fmap in Hin as (y & Hy1 & Hy).
  pose proof (proj1 (Forall_forall _ _) Hx' y Hy) as Hxy. unfold key_lt in *.
  now rewrite <- Hx, Hy1.
Qed.

(** The levels of a table that was read are as many as its records. *)
Lemma read_levels_keys fuel dir energy_log_files n_jnp0 levels n_jnp :
  read_levels fuel dir energy_log_files n_jnp0 = Ok (levels, n_jnp) ->
  exists E_data,
    read_energy_logfiles fuel dir energy_log_files [] = Ok E_data
    /\ E_data <> []
    /\ levels.*1 = (sorted_items E_data).*1
    /\ (levels, n_jnp) = assign_indices (sorted_items E_data) ∅ n_jnp0.
Proof.
  unfold read_levels. intros H. bind_inv H. rename a into E_data.
  destruct (length (dict_keys E_data) =? 0)%nat eqn:Hlen; [discriminate|].
  injection H as H. apply Nat.eqb_neq in Hlen. exists E_data.
  split; [exact Ha|]. split; [now intros ->|]. split; [|now symmetry].
  rewrite <- (assign_indices_keys (sorted_items E_data) ∅ n_jnp0). now rewrite H.
Qed.

(** X8. The levels come out of the index loop in the order of strictly
    increasing energy, provided that no energy of the logs is NaN: the
    first level is the one of lowest energy, which [E_gs] is set to. *)
Theorem levels_sorted_by_energy fuel dir energy_log_files n_jnp0 levels n_jnp :
  read_levels fuel dir energy_log_files n_jnp0 = Ok (levels, n_jnp) ->
  Forall is_number levels.*1 ->
  levels <> [] /\ StronglySorted key_lt levels.
Proof.
  intros (E_data & Hread & Hne & Hkeys & _)%read_levels_keys Hnum. split.
  - intros ->. apply Hne. apply Permutation_nil_r.
    rewrite <- (sorted_items_Permutation E_data).
    destruct (sorted_items E_data); [reflexivity|discriminate].
  - apply (sorted_by_keys (sorted_items E_data)); [now symmetry|].
    apply (foldl_insort_sorted E_data []); [constructor|]. cbn [app].
    apply distinct_keys_unambiguous; [eapply read_energy_logfiles_distinct; eassumption|].
    unfold dict_keys. rewrite <- (sorted_items_Permutation E_data), <- Hkeys. exact Hnum.
Qed.

Lemma levels_sorted_by_energy_witness :
  exists levels n_jnp,
    read_levels 9 Example.dir_Ni56 Example.dir_Ni56.*1 ∅ = Ok (levels, n_jnp)
    /\ levels.*1 = [(-10)%float; (-9.5)%float; (-9)%float]
    /\ StronglySorted key_lt levels.
Proof.
  destruct (read_levels 9 Example.dir_Ni56 Example.dir_Ni56.*1 ∅) as [[levels n_jnp]| |] eqn:H;
    try (vm_compute in H; discriminate H).
  assert (Hkeys : levels.*1 = [(-10)%float; (-9.5)%float; (-9)%float])
    by (vm_compute in H; injection H as <- _; reflexivity).
  exists levels, n_jnp. split; [reflexivity|]. split; [exact Hkeys|].
  apply (levels_sorted_by_energy 9 Example.dir_Ni56 Example.dir_Ni56.*1 ∅ levels n_jnp H).
  rewrite Hkeys. repeat constructor.
Defined.
End Order.

(** ** The aggregator: the globals, the name of the summary, the logs *)

Section Aggregator.
#[local] Open Scope list_scope.



Lemma summary_name_least fuel dir isotope model_space k name :
  summary_name fuel dir isotope model_space k = Ok name ->
  exists j : nat,
    name = summary_file isotope model_space (k + Z.of_nat j)
    /\ (name ∉ dir.*1)
    /\ forall i : nat, (i < j)%nat -> summary_file isotope model_space (k + Z.of_nat i) ∈ dir.*1.
Proof.
  revert k. induction fuel as [|fuel IH]; intros k; [discriminate|].
  cbn [summary_name]. destruct (in_list _ dir.*1) eqn:Hin.
  - intros (j & -> & Hfree & Htaken)%IH. exists (S j).
    split; [f_equal; lia|].
    split; [replace (k + Z.of_nat (S j)) with (k + 1 + Z.of_nat j) by lia; exact Hfree|].
    intros [|i] Hi.
    + rewrite Z.add_0_r. now apply list_elem_of_In, in_list_In.
    + replace (k + Z.of_nat (S i)) with (k + 1 + Z.of_nat i) by lia. apply Htaken. lia.
  - intros [= <-]. exists 0%nat. rewrite Z.add_0_r. split; [reflexivity|].
    split; [|intros i Hi; lia].
    intros Hmem%list_elem_of_In%in_list_In. congruence.
Qed.

(** X10. The search for the name of the summary ends, after one more try
    than the directory has files at most, with the name of the least
    counter, from 0 on, that is not the name of a file of the directory:
    no file that is there is written over. *)
Theorem summary_name_is_free fuel dir isotope model_space :
  (length dir < fuel)%nat ->
  exists counter,
    0 <= counter <= Z.of_nat (length dir)
    /\ summary_name fuel dir isotope model_space 0
       = Ok (summary_file isotope model_space counter)
    /\ (summary_file isotope model_space counter ∉ dir.*1)
    /\ forall j, 0 <= j < counter -> summary_file isotope model_space j ∈ dir.*1.
Proof.
  intros Hfuel.
  destruct (summary_name_Ok fuel dir isotope model_space 0 ltac:(lia) Hfuel) as [c Hname].
  destruct (summary_name_least _ _ _ _ _ _ Hname) as (j & Hj & Hfree & Htaken).
  rewrite Z.add_0_l in Hj. exists (Z.of_nat j).
  assert (Hlen : (j <= length dir)%nat).
  { set (names := (fun i => summary_file isotope model_space (Z.of_nat i)) <$> seq 0 j).
    assert (Hnodup : NoDup names).
    { apply NoDup_fmap_2_strong; [|apply NoDup_seq].
      intros i i' _ _ Hi. apply summary_file_inj in Hi; lia. }
    assert (Hincl : names ⊆ dir.*1).
    { intros name (i & -> & Hi%elem_of_seq)%list_elem_of_fmap.
      rewrite <- (Z.add_0_l (Z.of_nat i)). apply Htaken. lia. }
    apply (NoDup_submseteq _ _ Hnodup) in Hincl. apply submseteq_length in Hincl.
    unfold names in Hincl. rewrite !length_fmap, length_seq in Hincl. exact Hincl. }
  split; [lia|]. split; [now rewrite Hname, Hj|]. split; [now rewrite <- Hj|].
  intros i Hi. replace i with (0 + Z.of_nat (Z.to_nat i)) by lia. apply Htaken. lia.
Qed.

Lemma summary_name_is_free_witness :
  let dir := [("summary_V50_gxpf1a_000.txt", []); ("log_V50_gxpf1a_j0p.txt", Example.log_V50);
              ("summary_V50_gxpf1a_001.txt", [])] in
  summary_name 4 dir "V50" "gxpf1a" 0 = Ok "summary_V50_gxpf1a_002.txt"
  /\ exists counter,
       0 <= counter <= 3
       /\ summary_name 4 dir "V50" "gxpf1a" 0 = Ok (summary_file "V50" "gxpf1a" counter)
       /\ (summary_file "V50" "gxpf1a" counter ∉ dir.*1)
       /\ forall j, 0 <= j < counter -> summary_file "V50" "gxpf1a" j ∈ dir.*1.
Proof.
  intros dir. split; [reflexivity|].
  apply (summary_name_is_free 4 dir "V50" "gxpf1a"). cbn. lia.
Defined.

Lemma split_at_cons sep s word : exists x l, Py.split_at sep s word = x :: l.
Proof.
  revert word. induction s as [|c s IH]; intros word; cbn; [eauto|].
  destruct (Ascii.eqb c sep); eauto.
Qed.

(** A name that begins with [log_] has a second field. *)
Lemma log_name_has_isotope elem :
  Py.startswith "log_" elem = true -> exists tmp, Py.item (Py.split_on "_" elem) 1 = Ok tmp.
Proof.
  intros (rest & ->)%startswith_app. unfold Py.split_on.
  rewrite !append_cons, append_empty. cbn.
  destruct (split_at_cons "_" rest "") as (x & l & ->). now exists x.
Qed.

Lemma list_logs_app listing energy_log_files transit_log_files isotopes :
  exists isotopes',
    list_logs listing energy_log_files transit_log_files isotopes
    = Ok (energy_log_files ++ filter (fun elem => is_energy_log elem = true) listing,
          transit_log_files ++ filter (fun elem => is_transit_log elem = true) listing,
          isotopes').
Proof.
  revert energy_log_files transit_log_files isotopes.
  induction listing as [|elem listing IH]; intros E T I.
  - exists I. cbn. now rewrite !app_nil_r.
  - cbn [list_logs]. rewrite !filter_cons. unfold is_energy_log, is_transit_log, is_log.
    destruct (Py.startswith "log_" elem) eqn:Hlog; cbn [andb].
    2:{ rewrite !decide_False by discriminate. apply IH. }
    destruct (Py.endswith ".txt" elem); cbn [andb].
    2:{ rewrite !decide_False by discriminate. apply IH. }
    destruct (log_name_has_isotope elem Hlog) as [tmp ->]. cbn [mbind outcome_bind].
    destruct (Py.contains "_tr_" elem); cbn [negb].
    + rewrite decide_False by discriminate. rewrite decide_True by reflexivity.
      edestruct IH as [I' ->]. exists I'. now rewrite <- app_assoc.
    + rewrite decide_True by reflexivity. rewrite decide_False by discriminate.
      edestruct IH as [I' ->]. exists I'. now rewrite <- app_assoc.
Qed.

(** X11. The loop over the listing of the directory raises nothing, a
    name that begins with [log_] having a second field, and sorts the names
    that begin with [log_] and end with [.txt]: those without [_tr_] are
    the energy logs and those with [_tr_] the transition logs, each list in
    the order of the listing; every other name is left out. *)
Theorem list_logs_classifies listing :
  exists isotopes,
    list_logs listing [] [] []
    = Ok (filter (fun elem => is_energy_log elem = true) listing,
          filter (fun elem => is_transit_log elem = true) listing,
          isotopes).
Proof. exact (list_logs_app listing [] [] []). Qed.



End Aggregator.

(** ** The aggregator: logs of one isotope *)

Section OneIsotope.
#[local] Open Scope list_scope.

Lemma list_logs_one_isotope x listing energy_log_files transit_log_files isotopes :
  Forall (fun elem => is_log elem = true -> isotope_of elem = x) listing ->
  isotopes = [] \/ isotopes = [x] ->
  exists isotopes',
    list_logs listing energy_log_files transit_log_files isotopes
    = Ok (energy_log_files ++ filter (fun elem => is_energy_log elem = true) listing,
          transit_log_files ++ filter (fun elem => is_transit_log elem = true) listing,
          isotopes')
    /\ (isotopes' = [] \/ isotopes' = [x]).
Proof.
  intros Hx. revert energy_log_files transit_log_files isotopes.
  induction Hx as [|elem listing Helem _ IH]; intros E T I HI.
  - exists I. cbn. now rewrite !app_nil_r.
  - cbn [list_logs]. rewrite !filter_cons. unfold is_energy_log, is_transit_log.
    unfold is_log in Helem |- *.
    destruct (Py.startswith "log_" elem && Py.endswith ".txt" elem) eqn:Hlog; cbn [andb].
    2:{ rewrite !decide_False by discriminate. now apply IH. }
    apply andb_true_iff in Hlog as Hlog'. destruct Hlog' as [Hstart _].
    specialize (Helem eq_refl). unfold isotope_of in Helem.
    destruct (log_name_has_isotope elem Hstart) as [tmp Htmp]. rewrite Htmp.
    unfold Py.item in Htmp. destruct (Py.split_on "_" elem !! 1%nat) as [tmp'|]; [|discriminate].
    injection Htmp as ->. cbn [default] in Helem. unfold Datatypes.id in Helem.
    cbn [mbind outcome_bind]. rewrite Helem.
    assert (HI' : (if in_list x I then I else I ++ [x]) = []
                  \/ (if in_list x I then I else I ++ [x]) = [x]).
    { destruct HI as [->| ->]; [now right|]. right. cbn. now rewrite String.eqb_refl. }
    destruct (Py.contains "_tr_" elem); cbn [negb].
    + rewrite decide_False by discriminate. rewrite decide_True by reflexivity.
      edestruct (IH E (T ++ [elem])) as (I' & -> & HI''); [exact HI'|].
      exists I'. now rewrite <- app_assoc.
    + rewrite decide_True by reflexivity. rewrite decide_False by discriminate.
      edestruct (IH (E ++ [elem]) T) as (I' & -> & HI''); [exact HI'|].
      exists I'. now rewrite <- app_assoc.
Qed.

(** X19. When the logs of the directory are all of one isotope, their
    second fields being the same up to case, the discovery asks nothing
    and returns every energy log and every transition log of the
    directory, in the order of the listing. *)
Theorem one_isotope_no_prompt x dir stdin :
  Forall (fun elem => is_log elem = true -> isotope_of elem = x) dir.*1 ->
  discover dir stdin
  = Ok (filter (fun elem => is_energy_log elem = true) dir.*1,
        filter (fun elem => is_transit_log elem = true) dir.*1).
Proof.
  intros Hx. unfold discover.
  destruct (list_logs_one_isotope x dir.*1 [] [] [] Hx) as (isotopes & -> & Hi); [now left|].
  cbn [mbind outcome_bind app]. now destruct Hi as [-> | ->].
Qed.

Lemma one_isotope_no_prompt_witness :
  discover Example.dir_two_masses []
  = Ok (["log_V50_gxpf1a_j0p.txt"],
        ["log_V50_gxpf1a_tr_j0p_j4p.txt"; "log_V50_gxpf1a_tr_j4p_j8p.txt"]).
Proof.
  rewrite (one_isotope_no_prompt "v50"); [reflexivity|].
  repeat constructor.
Defined.
End OneIsotope.

(** ** The transition log parsers: the header *)

Section TransitLog.
Context (libm_pow : float -> float -> float) (n_jnp : index_table) (E_gs : float).
#[local] Open Scope list_scope.

Lemma read_transit_header_unannounced multipole_type infile h h' a rest :
  Forall (fun line => Py.contains (multipole_type +:+ " transition") line = false) infile ->
  read_transit_header libm_pow multipole_type infile h = Ok (h', a, rest) ->
  a = None /\ rest = [].
Proof.
  intros Hno. revert h. induction Hno as [|line infile Hline _ IH]; intros h.
  - now intros [= _ <- <-].
  - cbn [read_transit_header].
    destruct (length (Py.split line) =? 0)%nat; [apply IH|].
    destruct (Py.contains "mass=" line).
    + intros H. do 2 bind_inv H. destruct (negb _); [discriminate|]. bind_inv H.
      eapply IH; eassumption.
    + intros H. bind_inv H.
      destruct (String.eqb a0 "fn_load_wave_l"); [bind_inv H; eapply IH; eassumption|].
      destruct (String.eqb a0 "fn_load_wave_r"); [bind_inv H; eapply IH; eassumption|].
      rewrite Hline in H. eapply IH; eassumption.
Qed.

(** X13. A transition log gives transitions of a multipole type only
    under a line that announces this type: when no line of the log holds
    the type followed by [ transition], a parser that returns, of either
    layout, returns an empty table. *)
Theorem transitions_need_announcement (old : bool) infile multipole_type
    unit_weisskopf out_e mass :
  Forall (fun line => Py.contains (multipole_type +:+ " transition") line = false) infile ->
  read_transit_lines libm_pow n_jnp E_gs old infile multipole_type
  = Ok (unit_weisskopf, out_e, mass) ->
  out_e = [].
Proof.
  intros Hno H. unfold read_transit_lines in H. bind_inv H. destruct a as [[h a] rest].
  destruct (read_transit_header_unannounced _ _ _ _ _ _ Hno Ha) as [-> ->].
  cbn in H. destruct (weisskopf h) as [[B u]|]; [|discriminate]. cbn in H. congruence.
Qed.

(** X14. A transition log without a line other than blank ones, an empty
    file for one, makes either parser raise [UnboundLocalError]: the unit
    that is to be returned was never bound. *)
Theorem blank_transit_log (old : bool) infile multipole_type :
  Forall (fun line => Py.split line = []) infile ->
  read_transit_lines libm_pow n_jnp E_gs old infile multipole_type = Raise UnboundLocalError.
Proof.
  intros Hblank. unfold read_transit_lines.
  assert (Hhead : forall h,
            read_transit_header libm_pow multipole_type infile h = Ok (h, None, [])).
  { induction Hblank as [|line infile Hline _ IH]; intros h; [reflexivity|].
    cbn [read_transit_header]. rewrite Hline. cbn [length Nat.eqb]. apply IH. }
  rewrite Hhead. reflexivity.
Qed.

(** X15. In a header phase that returns, a mass number that is kept and
    is not 0 stays: every later line with [mass=] declares the same mass,
    which is the one returned. *)
Theorem mass_is_kept multipole_type infile h h' a rest :
  read_transit_header libm_pow multipole_type infile h = Ok (h', a, rest) ->
  mass_save h <> 0 -> mass_save h' = mass_save h.
Proof.
  revert h. induction infile as [|line infile IH]; intros h; [now intros [= <- _ _]|].
  cbn [read_transit_header]. intros H Hmass.
  destruct (length (Py.split line) =? 0)%nat; [now apply IH|].
  destruct (Py.contains "mass=" line).
  - do 2 bind_inv H. apply Z.eqb_neq in Hmass as Hm. rewrite Hm in H.
    destruct (mass_save h =? a1) eqn:Heq; [|discriminate]. cbn [negb] in H. bind_inv H.
    apply IH in H; [exact H|exact Hmass].
  - bind_inv H.
    destruct (String.eqb a0 "fn_load_wave_l"); [bind_inv H; apply IH in H; [exact H|exact Hmass]|].
    destruct (String.eqb a0 "fn_load_wave_r"); [bind_inv H; apply IH in H; [exact H|exact Hmass]|].
    destruct (Py.contains _ line); [|now apply IH].
    do 6 bind_inv H. now injection H as <- _ _.
Qed.

(** ** The transition log parsers: the table *)

Lemma split_ws_word s word : word <> ""%string -> Py.split_ws s word <> [].
Proof.
  revert word. induction s as [|c s IH]; intros word Hword; cbn.
  - apply String.eqb_neq in Hword. now rewrite Hword.
  - destruct (Py.is_space c).
    + apply String.eqb_neq in Hword. now rewrite Hword.
    + apply IH. destruct word; discriminate.
Qed.

(** X16. The table of a transition log ends at its first blank line:
    what comes after that line is not read, in either layout. A line that
    begins with [pn=] is passed over and does not end the table. *)
Theorem read_transit_table_layout (old : bool) h a (out_e : dict string) :
  (forall rows blank rest,
     Py.split blank = [] ->
     read_transit_table n_jnp E_gs old h a (rows ++ blank :: rest) out_e
     = read_transit_table n_jnp E_gs old h a rows out_e)
  /\ (forall line rest,
        Py.startswith "pn=" line = true ->
        read_transit_table n_jnp E_gs old h a (line :: rest) out_e
        = read_transit_table n_jnp E_gs old h a rest out_e).
Proof.
  split.
  - intros rows blank rest Hblank. revert out_e.
    induction rows as [|row rows IH]; intros out_e; cbn [app read_transit_table].
    + now rewrite Hblank.
    + destruct (length (Py.split row) =? 0)%nat; [reflexivity|].
      destruct (Py.startswith "pn=" row); [apply IH|].
      destruct (if old then _ else _) as [out_e'| |]; cbn [mbind outcome_bind]; auto.
  - intros line rest Hpn. cbn [read_transit_table]. rewrite Hpn.
    destruct (Py.split line) eqn:Hsplit; [|reflexivity]. exfalso.
    apply startswith_app in Hpn as [r ->]. revert Hsplit.
    unfold Py.split. rewrite !append_cons. cbn [Py.split_ws].
    change (Py.is_space "p") with false. cbv iota.
    apply split_ws_word. rewrite append_empty. discriminate.
Qed.

(** X17. A line of the table adds a record only when it passes every
    filter and both its states are in [n_jnp]: the Weisskopf unit and the
    parities are bound, the two ends differ in spin or in the index of the
    log, the transition energy is not negative in a log of one wave
    function file, neither strength is below the threshold in Weisskopf
    units, and then the record is stored under one key. Otherwise the
    table is left as it was. *)
Theorem kept_transition h a spin_final idx_1 spin_initial idx_2
    dE E_final E_initial B_decay B_excite (out_e out_e' : dict string) :
  transition n_jnp h a spin_final idx_1 spin_initial idx_2
    dE E_final E_initial B_decay B_excite out_e = Ok out_e' ->
  out_e' = out_e
  \/ exists B_weisskopf unit_weisskopf parity_final parity_initial is_diag key out,
       weisskopf h = Some (B_weisskopf, unit_weisskopf)
       /\ a = Some (parity_final, parity_initial, is_diag)
       /\ (spin_final <> spin_initial \/ idx_1 <> idx_2)
       /\ (is_diag = true -> PrimFloat.ltb dE 0 = false)
       /\ PrimFloat.ltb (B_decay / B_weisskopf) weisskopf_threshold = false
       /\ PrimFloat.ltb (B_excite / B_weisskopf) weisskopf_threshold = false
       /\ is_Some (n_jnp !! (spin_final, parity_final, idx_1))
       /\ is_Some (n_jnp !! (spin_initial, parity_initial, idx_2))
       /\ out_e' = dict_set key out out_e.
Proof.
  unfold transition. intros H.
  destruct (weisskopf h) as [[B u]|] eqn:Hw; [|discriminate].
  cbn [local or_raise mbind outcome_bind] in H.
  unfold float_div in H. destruct (PrimFloat.eqb B 0); [discriminate|].
  cbn [mbind outcome_bind] in H.
  destruct ((spin_final =? spin_initial) && (idx_1 =? idx_2)) eqn:Hsame; [left; congruence|].
  destruct a as [[[pf pi] diag]|]; [|discriminate]. cbn [local or_raise mbind outcome_bind] in H.
  destruct (diag && PrimFloat.ltb dE 0) eqn:Hdiag; [left; congruence|].
  destruct (PrimFloat.ltb (B_decay / B) weisskopf_threshold) eqn:Hd; [left; congruence|].
  destruct (PrimFloat.ltb (B_excite / B) weisskopf_threshold) eqn:He; [left; congruence|].
  destruct (n_jnp !! (spin_final, pf, idx_1)) as [i1|] eqn:H1; [|discriminate].
  destruct (n_jnp !! (spin_initial, pi, idx_2)) as [i2|] eqn:H2; [|discriminate].
  cbn [or_raise mbind outcome_bind] in H.
  do 6 bind_inv H. right.
  assert (Hne : spin_final <> spin_initial \/ idx_1 <> idx_2).
  { apply andb_false_iff in Hsame as [Hs|Hs]; apply Z.eqb_neq in Hs; auto. }
  assert (Hdg : diag = true -> PrimFloat.ltb dE 0 = false) by (intros ->; exact Hdiag).
  destruct (PrimFloat.ltb 0 dE); injection H as <-;
    (eexists B, u, pf, pi, diag, _, _;
     repeat split; [exact Hne|exact Hdg|exact Hd|exact He|eauto|eauto]).
Qed.
End TransitLog.

Lemma transitions_need_announcement_witness :
  read_transit_lines Example.pow_0_2 ∅ 0%float false
    (Example.transit_head "50" ++ Example.transit_table)%list "M1" = Ok ("mu_N^2  ", [], 50).
Proof.
  assert (H : exists out_e, read_transit_lines Example.pow_0_2 ∅ 0%float false
                (Example.transit_head "50" ++ Example.transit_table)%list "M1"
              = Ok ("mu_N^2  ", out_e, 50)) by (eexists; vm_compute; reflexivity).
  destruct H as [out_e H].
  assert (Hno : Forall (fun line => Py.contains "M1 transition" line = false)
                  (Example.transit_head "50" ++ Example.transit_table)%list)
    by (cbv [Example.transit_head Example.transit_table app]; repeat constructor).
  rewrite H. now rewrite (transitions_need_announcement _ _ _ _ _ "M1" _ _ _ Hno H).
Defined.

Lemma blank_transit_log_witness :
  read_transit_lines Example.pow_0_2 ∅ 0%float true [Py.nl; "   " +:+ Py.nl] "E2"
  = Raise UnboundLocalError.
Proof. apply blank_transit_log. repeat constructor. Defined.

Lemma mass_is_kept_witness :
  exists h a rest,
    read_transit_header Example.pow_0_2 "E2"
      (Example.transit_head "50" ++ Example.transit_table)%list (Header 50 None None None)
    = Ok (h, a, rest)
    /\ mass_save h = 50.
Proof.
  destruct (read_transit_header Example.pow_0_2 "E2"
              (Example.transit_head "50" ++ Example.transit_table)%list
              (Header 50 None None None)) as [[[h a] rest]| |] eqn:H;
    try (vm_compute in H; discriminate H).
  exists h, a, rest. split; [reflexivity|].
  exact (mass_is_kept _ _ _ _ _ _ _ H ltac:(discriminate)).
Defined.

Lemma read_transit_table_layout_witness :
  read_transit_table Example.n_jnp_Ni56 (-10)%float false Example.header_E1
    Example.announcement_E1
    [Example.row_self; Py.nl; Example.row_E1] []
  = Ok []
  /\ read_transit_table Example.n_jnp_Ni56 (-10)%float true Example.header_E1
       Example.announcement_E1
       ["pn= 1   # of mbits=            286" +:+ Py.nl; Example.row_self_old] []
     = Ok [].
Proof.
  destruct (read_transit_table_layout Example.n_jnp_Ni56 (-10)%float false Example.header_E1
              Example.announcement_E1 []) as [Hblank _].
  destruct (read_transit_table_layout Example.n_jnp_Ni56 (-10)%float true Example.header_E1
              Example.announcement_E1 []) as [_ Hpn].
  split.
  - change [Example.row_self; Py.nl; Example.row_E1]
      with ([Example.row_self] ++ Py.nl :: [Example.row_E1])%list.
    rewrite (Hblank [Example.row_self] Py.nl [Example.row_E1] eq_refl). vm_compute. reflexivity.
  - rewrite Hpn by reflexivity. vm_compute. reflexivity.
Defined.

Lemma kept_transition_witness :
  exists key out,
    transition Example.n_jnp_Ni56 Example.header_E1 Example.announcement_E1
      4 1 4 2 1 0 1 0.25 0.25 [] = Ok [(key, out)]
    /\ Example.n_jnp_Ni56 !! (4, "+", 1) = Some 1
    /\ Example.n_jnp_Ni56 !! (4, "-", 2) = Some 1.
Proof.
  destruct (transition Example.n_jnp_Ni56 Example.header_E1 Example.announcement_E1
              4 1 4 2 1 0 1 0.25 0.25 []) as [out_e| |] eqn:H;
    try (vm_compute in H; discriminate H).
  destruct (kept_transition _ _ _ _ _ _ _ _ _ _ _ _ _ _ H)
    as [->|(B & u & pf & pi & diag & key & out & _ & _ & _ & _ & _ & _ & _ & _ & ->)].
  - vm_compute in H. discriminate H.
  - exists key, out. split; [reflexivity|]. split; vm_compute; reflexivity.
Defined.

(** ** The unit converter: the designator *)

(** X18. A designator of fewer than two characters makes the unit
    converter raise [ValueError], whatever its class is: the rank is read
    first, and it is not there. The converter never raises [IndexError]. *)
Theorem weisskopf_unit_short_designator {F : Type} `{PyArith F} multipole_type mass :
  ((String.length multipole_type < 2)%nat ->
   weisskopf_unit multipole_type mass = Raise ValueError)
  /\ weisskopf_unit multipole_type mass <> Raise IndexError.
Proof.
  unfold weisskopf_unit. split.
  - intros Hlen. destruct multipole_type as [|c [|c' r]]; cbn in Hlen; try lia; reflexivity.
  - destruct multipole_type as [|c r]; [discriminate|].
    destruct (Py.int (Py.slice_from 1 (String c r))) as [l|e|] eqn:Hl; cbn [mbind outcome_bind].
    + cbn. destruct (Ascii.eqb (Py.upper_chr c) "E"); [destruct (l + 3 =? 0); discriminate|].
      destruct (Ascii.eqb (Py.upper_chr c) "M");
        [destruct (l + 3 =? 0); discriminate|discriminate].
    + unfold Py.int in Hl. destruct (Py.int_opt _); [discriminate|]. cbn in Hl. congruence.
    + discriminate.
Qed.

Lemma weisskopf_unit_short_designator_witness :
  weisskopf_unit (H := real_arith) "E" 56 = Raise ValueError
  /\ weisskopf_unit (H := real_arith) "" 56 = Raise ValueError.
Proof.
  split.
  - apply (proj1 (weisskopf_unit_short_designator "E" 56)). cbn. lia.
  - apply (proj1 (weisskopf_unit_short_designator "" 56)). cbn. lia.
Defined.

(** ** The aggregator: the prompt and the heading of a block *)

Section Prompt.
#[local] Open Scope list_scope.

(** X20. With logs of several isotopes the prompt is repeated until an
    isotope of the list is typed: the answers before it are passed over,
    and the logs that are kept are those whose name, in lower case, holds
    the answer. *)
Theorem prompt_repeats dir bad choice rest energy_log_files transit_log_files isotopes :
  list_logs dir.*1 [] [] [] = Ok (energy_log_files, transit_log_files, isotopes) ->
  (1 < length isotopes)%nat ->
  Forall (fun answer => in_list answer isotopes = false) bad ->
  in_list choice isotopes = true ->
  discover dir (bad ++ choice :: rest)
  = Ok (filter (fun i => Py.contains choice (Py.lower i) = true) energy_log_files,
        filter (fun i => Py.contains choice (Py.lower i) = true) transit_log_files).
Proof.
  intros Hlogs Hlen Hbad Hchoice. unfold discover. rewrite Hlogs. cbn [mbind outcome_bind].
  apply Nat.ltb_lt in Hlen. rewrite Hlen.
  assert (Hinput : input_choice (bad ++ choice :: rest) isotopes = Ok choice).
  { induction Hbad as [|answer bad Hanswer _ IH]; cbn [app input_choice].
    - now rewrite Hchoice.
    - now rewrite Hanswer. }
  now rewrite Hinput.
Qed.

Lemma prompt_repeats_witness :
  discover (("log_Ni56_gxpf1a_j0p.txt", []) :: Example.dir_two_masses) ["Fe56"; "v50"; "ni56"]
  = Ok (["log_V50_gxpf1a_j0p.txt"],
        ["log_V50_gxpf1a_tr_j0p_j4p.txt"; "log_V50_gxpf1a_tr_j4p_j8p.txt"]).
Proof.
  rewrite (prompt_repeats _ ["Fe56"] "v50" ["ni56"]
             ["log_Ni56_gxpf1a_j0p.txt"; "log_V50_gxpf1a_j0p.txt"]
             ["log_V50_gxpf1a_tr_j0p_j4p.txt"; "log_V50_gxpf1a_tr_j4p_j8p.txt"]
             ["ni56"; "v50"]); try reflexivity.
  - cbn. lia.
  - repeat constructor.
Defined.
End Prompt.

Section Heading.
Context (libm_pow : float -> float -> float).
Context (dir : directory) (n_jnp : index_table) (E_gs : float) (old_or_new : string).
#[local] Open Scope list_scope.

(** What the loop over the transition logs leaves as unit and mass is
    what the parser returned for the log read last. *)
Lemma read_transit_logfiles_last multipole_type transit_log_files filename output_e last
    output_e' last' :
  read_transit_logfiles libm_pow dir n_jnp E_gs old_or_new multipole_type
    (transit_log_files ++ [filename]) output_e last = Ok (output_e', last') ->
  exists unit_weisskopf out_e mass,
    (if String.eqb (Py.lower old_or_new) "new"
     then read_transit_logfile libm_pow n_jnp E_gs dir filename multipole_type
     else read_transit_logfile_old libm_pow n_jnp E_gs dir filename multipole_type)
    = Ok (unit_weisskopf, out_e, mass)
    /\ last' = Some (unit_weisskopf, mass).
Proof.
  revert output_e last. induction transit_log_files as [|f files IH]; intros output_e last;
    cbn [app read_transit_logfiles]; intros H; bind_inv H; destruct a as [[u o] m].
  - cbn in H. injection H as _ <-. now exists u, o, m.
  - eapply IH; eassumption.
Qed.

(** X21. The mass number in the heading of the block of a multipole
    type, from which the Weisskopf unit of the heading is computed, is the
    one that the parser returned for the transition log read last; the
    masses of the logs before it are not looked at. *)
Theorem heading_from_last_log multipole_type transit_log_files filename block :
  transition_block libm_pow dir n_jnp E_gs old_or_new multipole_type
    (transit_log_files ++ [filename]) = Ok block ->
  exists unit_weisskopf out_e mass B_weisskopf unit_weisskopf',
    (if String.eqb (Py.lower old_or_new) "new"
     then read_transit_logfile libm_pow n_jnp E_gs dir filename multipole_type
     else read_transit_logfile_old libm_pow n_jnp E_gs dir filename multipole_type)
    = Ok (unit_weisskopf, out_e, mass)
    /\ weisskopf_unit (H := float_arith libm_pow) multipole_type mass
       = Ok (B_weisskopf, unit_weisskopf')
    /\ head block
       = Some ("B(" +:+ multipole_type +:+ ")  ( > "
               +:+ PyFloat.format_f 0 1 weisskopf_threshold
               +:+ " W.u.)  mass = " +:+ Py.str mass +:+ "    1 W.u. = "
               +:+ PyFloat.format_f 0 1 B_weisskopf +:+ " " +:+ unit_weisskopf').
Proof.
  unfold transition_block. intros H. bind_inv H. destruct a as [output_e last].
  apply read_transit_logfiles_last in Ha as (u & o & m & Hlast & ->).
  cbn [local or_raise mbind outcome_bind] in H. bind_inv H. destruct a as [B u'].
  injection H as <-. exists u, o, m, B, u'. repeat split; assumption || reflexivity.
Qed.

End Heading.

Lemma heading_from_last_log_witness :
  exists B_weisskopf rest,
    transition_block Example.pow_0_2 Example.dir_two_masses ∅ 0%float "new" "E2"
      (["log_V50_gxpf1a_tr_j0p_j4p.txt"] ++ ["log_V50_gxpf1a_tr_j4p_j8p.txt"])%list
    = Ok (("B(E2)  ( > -0.0 W.u.)  mass = 52    1 W.u. = "
           +:+ PyFloat.format_f 0 1 B_weisskopf +:+ " e^2 fm^4") :: rest).
Proof.
  destruct (transition_block Example.pow_0_2 Example.dir_two_masses ∅ 0%float "new" "E2"
              (["log_V50_gxpf1a_tr_j0p_j4p.txt"] ++ ["log_V50_gxpf1a_tr_j4p_j8p.txt"])%list)
    as [block| |] eqn:H; try (vm_compute in H; discriminate H).
  destruct (heading_from_last_log _ _ _ _ _ _ _ _ _ H) as (u & o & m & B & u' & Hlast & HB & Hhead).
  vm_compute in Hlast. injection Hlast as _ _ <-.
  assert (Hu : u' = "e^2 fm^4") by (vm_compute in HB; now injection HB as _ <-).
  subst u'. destruct block as [|line rest]; [discriminate|]. exists B, rest.
  injection Hhead as ->. reflexivity.
Defined.
